(** * googlesheety.py: Zoho WorkDrive permalinks synchronised to a Google Sheet

    A shallow embedding of [src/googlesheety.py].  The script is sequential
    glue over four remote services (the Zoho token endpoint, the WorkDrive
    file and permission endpoints, the Gemini text endpoint, the Google
    Sheets client) and one local file (the Google token).  The embedding
    keeps

    - the parsed JSON bodies as an inductive type, with the Python
      operations the script applies to them ([dict.get], [x[0]], [in],
      truthiness, [str.strip]) and the exceptions those raise on values of
      the wrong shape;
    - the two module globals that [refresh_access_token] assigns;
    - every observable action (request, sleep, print) as an event of a trace;
    - [try]/[except] as a handler that names the exception classes it
      catches;
    - the remote services as functions of an abstract world state, bundled
      in a record, so that every theorem quantifies over all their
      behaviours.

    What the embedding takes from the libraries the script calls:
    [response.json()] on a body that is not JSON raises a
    [RequestException] (requests 2.27 and later); a values read of the
    Sheets client returns rows of strings; a parsed dictionary has distinct
    keys; a character is a code point below 256.  The [while True] loop of
    [fetch_file_ids] runs on an iteration budget, and a run that exhausts
    it is reported as such, never as a result. *)

From stdpp Require Import base option list strings gmap pretty.
From Stdlib Require Import ZArith Lia Ascii.

Open Scope string_scope.
Set Warnings "-register-all".

(** ** Parsed JSON, as [response.json()] returns it *)

(** Python's [None] is [JNull].  Numbers are only ever tested for
    truthiness by the script, so integers stand for them. *)
Inductive json : Type :=
| JNull
| JBool (b : bool)
| JNum (n : Z)
| JStr (s : string)
| JArr (items : list json)
| JObj (fields : list (string * json)).

(** The exception classes that occur.  All of them derive from
    [Exception]; [RequestException] is [requests.exceptions.RequestException]
    and [HttpError] is [googleapiclient.errors.HttpError]. *)
Inductive exn : Type :=
| RequestException
| HttpError
| AttributeError
| TypeError
| IndexError
| KeyError
| ValueError
| OtherException (name : string).

(** The result of running a piece of the script: a value, a raised
    exception, or a [while True] loop that is still running when the
    iteration budget is spent. *)
Inductive outcome (A : Type) : Type :=
| Return (a : A)
| Raise (e : exn)
| OutOfFuel.
Arguments Return {A} a.
Arguments Raise {A} e.
Arguments OutOfFuel {A}.

(** The items of a parsed dictionary are kept as a list of bindings with
    distinct keys; [dict_lookup] is the dictionary's lookup. *)
Fixpoint dict_lookup (k : string) (fields : list (string * json)) : option json :=
  match fields with
  | [] => None
  | (k', v) :: rest => if String.eqb k' k then Some v else dict_lookup k rest
  end.

(** [bool(x)] *)
Definition truthy (x : json) : bool :=
  match x with
  | JNull => false
  | JBool b => b
  | JNum n => negb (n =? 0)%Z
  | JStr s => negb (String.eqb s "")
  | JArr items => match items with [] => false | _ => true end
  | JObj fields => match fields with [] => false | _ => true end
  end.

(** [x.get(k, d)]: only a dictionary has the method. *)
Definition py_get (x : json) (k : string) (d : json) : outcome json :=
  match x with
  | JObj fields => Return (default d (dict_lookup k fields))
  | _ => Raise AttributeError
  end.

(** [x[0]] *)
Definition py_first (x : json) : outcome json :=
  match x with
  | JArr (item :: _) => Return item
  | JArr [] => Raise IndexError
  | JStr (String c _) => Return (JStr (String c EmptyString))
  | JStr EmptyString => Raise IndexError
  | JObj _ => Raise KeyError
  | JNull | JBool _ | JNum _ => Raise TypeError
  end.

Definition is_str (s : string) (x : json) : bool :=
  match x with JStr s' => String.eqb s' s | _ => false end.

Definition is_substring (s1 s2 : string) : bool :=
  match String.index 0 s1 s2 with Some _ => true | None => false end.

(** [k in x] for a string [k] *)
Definition py_contains (k : string) (x : json) : outcome bool :=
  match x with
  | JObj fields =>
      Return (match dict_lookup k fields with Some _ => true | None => false end)
  | JArr items => Return (existsb (is_str k) items)
  | JStr s => Return (is_substring k s)
  | JNull | JBool _ | JNum _ => Raise TypeError
  end.

(** [x[k]] for a string [k] *)
Definition py_item (x : json) (k : string) : outcome json :=
  match x with
  | JObj fields =>
      match dict_lookup k fields with Some v => Return v | None => Raise KeyError end
  | _ => Raise TypeError
  end.

(** What [for item in x] iterates over. *)
Fixpoint chars (s : string) : list json :=
  match s with
  | EmptyString => []
  | String c s' => JStr (String c EmptyString) :: chars s'
  end.

Definition py_iter (x : json) : outcome (list json) :=
  match x with
  | JArr items => Return items
  | JObj fields => Return (map (fun kv => JStr (fst kv)) fields)
  | JStr s => Return (chars s)
  | JNull | JBool _ | JNum _ => Raise TypeError
  end.

(** [len(x)] *)
Definition py_len (x : json) : outcome nat :=
  match x with
  | JArr items => Return (length items)
  | JObj fields => Return (length fields)
  | JStr s => Return (String.length s)
  | JNull | JBool _ | JNum _ => Raise TypeError
  end.

(** ** Strings *)

(** A character is a code point below 256.  [str.strip()] removes the code
    points for which [str.isspace] holds: 9 to 13, 28 to 32, 133 and 160. *)
Definition is_space (c : ascii) : bool :=
  let n := nat_of_ascii c in
  (((9 <=? n) && (n <=? 13)) || ((28 <=? n) && (n <=? 32))
   || (n =? 133) || (n =? 160))%nat.

Fixpoint lstrip (s : string) : string :=
  match s with
  | EmptyString => EmptyString
  | String c s' => if is_space c then lstrip s' else s
  end.

Fixpoint rstrip (s : string) : string :=
  match s with
  | EmptyString => EmptyString
  | String c s' =>
      match rstrip s' with
      | EmptyString => if is_space c then EmptyString else String c EmptyString
      | r => String c r
      end
  end.

Definition strip (s : string) : string := rstrip (lstrip s).

(** [x.strip()]: only a string has the method. *)
Definition py_strip (x : json) : outcome string :=
  match x with
  | JStr s => Return (strip s)
  | _ => Raise AttributeError
  end.

(** [re.match(r'^https?://', s)] succeeds exactly on these two prefixes. *)
Definition matches_url_scheme (s : string) : bool :=
  String.prefix "http://" s || String.prefix "https://" s.


(** ** The process: globals, trace, remote services *)

(** The value [f"Zoho-oauthtoken {data['access_token']}"]. *)
Inductive auth : Type :=
| ZohoOauthToken (access_token : json).

(** One constructor for each [print] of the script. *)
Inductive message : Type :=
| MsgInvalidGoogleToken
| MsgSheetsInitFailed (e : exn)
| MsgMissingZohoVariables
| MsgMissingGeminiKey
| MsgMissingSpreadsheetId
| MsgNewAccessToken (token : auth)
| MsgRefreshFailed (error : json)
| MsgRefreshError
| MsgFetchError
| MsgPermissionsSet (file_id response_data : json)
| MsgDirectPermalink (file_id permalink : json)
| MsgUsingGemini (file_id : json)
| MsgGeminiPermalink (file_id permalink : json)
| MsgProcessError (file_id : json)
| MsgNoPermalinkExtracted
| MsgInvalidUrl (text : string)
| MsgGeminiExtracted (text : string)
| MsgGeminiError
| MsgExistingIds (ids : gset string)
| MsgWillAppend (file_id permalink : json)
| MsgSkipping (file_id : json)
| MsgNoNewIds
| MsgAppended (rows : json)
| MsgSheetError
| MsgUnexpectedError (e : exn)
| MsgRefreshing
| MsgExiting
| MsgFetching
| MsgFound (n : nat)
| MsgProcessing (file_id : json)
| MsgNoValidResults.

(** Everything the process does that can be observed from outside. *)
Inductive event : Type :=
| Print (m : message)
| Sleep (seconds : nat)
| PostToken
| GetFiles (authorization : option auth) (limit offset : nat)
| PostPermissions (authorization : option auth) (file_id : json)
| PostGemini (response_data : json)
| BuildService
| SheetGet
| SheetAppend (values : list (json * json)).

(** [requests.post]/[requests.get] followed by [raise_for_status()] and
    [json()]: a connection error, an error status and a body that is not
    JSON all raise a [RequestException]. *)
Inductive http_result : Type :=
| HttpFail
| HttpOk (body : json).

(** A call of the Google client: a value or any exception. *)
Inductive api_result (A : Type) : Type :=
| ApiOk (a : A)
| ApiRaise (e : exn).
Arguments ApiOk {A} a.
Arguments ApiRaise {A} e.

(** [etc/secrets/token.json]: absent, refused by
    [Credentials.from_authorized_user_file], or loaded with its [valid]
    flag. *)
Inductive token_file_state : Type :=
| TokenFileMissing
| TokenFileRejected (e : exn)
| TokenFileLoaded (valid : bool).

(** The environment variables, as [os.getenv] returns them. *)
Record Config : Type := {
  ZOHO_REFRESH_TOKEN : option string;
  ZOHO_CLIENT_ID : option string;
  ZOHO_CLIENT_SECRET : option string;
  gemini_api_key : option string;
  SPREADSHEET_ID : option string
}.

(** The outside world: each service answers from the world's state and
    may change it.  A values read returns the rows of column A (strings,
    the client's default rendering), or no [values] key. *)
Record Services (W : Type) : Type := {
  token_endpoint : W -> http_result * W;
  files_endpoint : option auth -> nat -> nat -> W -> http_result * W;
  permissions_endpoint : option auth -> json -> W -> http_result * W;
  gemini_endpoint : json -> W -> http_result * W;
  token_file : W -> token_file_state;
  sheets_build : W -> api_result unit * W;
  sheets_values_get : W -> api_result (option (list (list string))) * W;
  sheets_values_append : list (json * json) -> W -> api_result json * W
}.
Arguments token_endpoint {W} _ _.
Arguments files_endpoint {W} _ _ _ _ _.
Arguments permissions_endpoint {W} _ _ _ _.
Arguments gemini_endpoint {W} _ _ _.
Arguments token_file {W} _ _.
Arguments sheets_build {W} _ _.
Arguments sheets_values_get {W} _ _.
Arguments sheets_values_append {W} _ _ _.

(** The module globals that change, the world, and the trace so far
    (oldest event first). *)
Record state (W : Type) : Type := State {
  world : W;
  zoho_auth_token : option auth;
  zoho_headers_Authorization : option auth;
  trace : list event
}.
Arguments State {W} _ _ _ _.
Arguments world {W} _.
Arguments zoho_auth_token {W} _.
Arguments zoho_headers_Authorization {W} _.
Arguments trace {W} _.

(** The state at import: both globals are [None]. *)
Definition initial {W} (w : W) : state W := State w None None [].

(** ** The monad of the script *)

Definition M (W A : Type) : Type := state W -> outcome A * state W.

#[global] Instance M_ret {W} : MRet (M W) := fun A a st => (Return a, st).

#[global] Instance M_bind {W} : MBind (M W) := fun A B f m st =>
  match m st with
  | (Return a, st') => f a st'
  | (Raise e, st') => (Raise e, st')
  | (OutOfFuel, st') => (OutOfFuel, st')
  end.

Definition lift {W A} (o : outcome A) : M W A := fun st => (o, st).

Definition raise {W A} (e : exn) : M W A := lift (Raise e).

Definition emit {W} (ev : event) : M W unit := fun st =>
  (Return tt,
   State (world st) (zoho_auth_token st) (zoho_headers_Authorization st)
         (trace st ++ [ev])%list).

Definition print {W} (m : message) : M W unit := emit (Print m).

Definition sleep {W} (seconds : nat) : M W unit := emit (Sleep seconds).

(** [try: body except ...]: [handlers e] is the first [except] clause that
    matches [e], if any. *)
Definition try_except {W A} (body : M W A) (handlers : exn -> option (M W A))
  : M W A := fun st =>
  match body st with
  | (Raise e, st') =>
      match handlers e with
      | Some handler => handler st'
      | None => (Raise e, st')
      end
  | r => r
  end.

(** [except requests.exceptions.RequestException as e: handler] *)
Definition except_RequestException {W A} (handler : M W A) (e : exn)
  : option (M W A) :=
  match e with RequestException => Some handler | _ => None end.

(** One HTTP exchange, logged as [ev]. *)
Definition request {W} (ev : event) (call : W -> http_result * W) : M W json :=
  fun st =>
  let '(r, w') := call (world st) in
  let st' := State w' (zoho_auth_token st) (zoho_headers_Authorization st)
                   (trace st ++ [ev])%list in
  match r with
  | HttpOk body => (Return body, st')
  | HttpFail => (Raise RequestException, st')
  end.

(** One call of the Google client, logged as [ev]. *)
Definition api_call {W A} (ev : event) (call : W -> api_result A * W) : M W A :=
  fun st =>
  let '(r, w') := call (world st) in
  let st' := State w' (zoho_auth_token st) (zoho_headers_Authorization st)
                   (trace st ++ [ev])%list in
  match r with
  | ApiOk a => (Return a, st')
  | ApiRaise e => (Raise e, st')
  end.

Definition get_Authorization {W} : M W (option auth) := fun st =>
  (Return (zoho_headers_Authorization st), st).

Definition set_zoho_auth_token {W} (t : auth) : M W unit := fun st =>
  (Return tt,
   State (world st) (Some t) (zoho_headers_Authorization st) (trace st)).

(** [zoho_headers['Authorization'] = zoho_auth_token] *)
Definition set_Authorization_from_token {W} : M W unit := fun st =>
  (Return tt, State (world st) (zoho_auth_token st) (zoho_auth_token st) (trace st)).

(** ** The script *)

(** [limit = 50] in [fetch_file_ids]. *)
Definition limit : nat := 50.

(** [{"file_id": ..., "permalink": ..., "success": ...}] *)
Record permission_result : Type := {
  file_id : json;
  permalink : json;
  success : bool
}.

(** [bool(v)] for a value of [os.getenv]. *)
Definition env_truthy (v : option string) : bool :=
  match v with
  | Some s => negb (String.eqb s "")
  | None => false
  end.

Definition is_None (v : option string) : bool :=
  match v with None => true | Some _ => false end.

(** [refresh_params.values()] *)
Definition refresh_params (cfg : Config) : list (option string) :=
  [ZOHO_REFRESH_TOKEN cfg; ZOHO_CLIENT_ID cfg; ZOHO_CLIENT_SECRET cfg].

(** [for file in files: file_id = file.get('id'); if file_id: ...] *)
Fixpoint collect_ids (files : list json) (file_ids : list json)
  : outcome (list json) :=
  match files with
  | [] => Return file_ids
  | file :: rest =>
      match py_get file "id" JNull with
      | Return file_id =>
          collect_ids rest
            (if truthy file_id then (file_ids ++ [file_id])%list else file_ids)
      | Raise e => Raise e
      | OutOfFuel => OutOfFuel
      end
  end.

(** [value[0] for value in values if value] *)
Fixpoint first_cells (values : list (list string)) : list string :=
  match values with
  | [] => []
  | [] :: rest => first_cells rest
  | (cell :: _) :: rest => cell :: first_cells rest
  end.

(** [file_id not in existing_ids], the set holding strings: a list or a
    dictionary cannot be hashed, any other value that is not a string is
    not a member. *)
Definition py_not_in (x : json) (existing_ids : gset string) : outcome bool :=
  match x with
  | JStr s => Return (bool_decide (s ∉ existing_ids))
  | JArr _ | JObj _ => Raise TypeError
  | JNull | JBool _ | JNum _ => Return true
  end.

Section Script.
Context {W : Type} (S : Services W) (cfg : Config).

Definition get_google_sheets_service : M W unit :=
  try_except
    (creds ← (fun st =>
                match token_file S (world st) with
                | TokenFileMissing => (Return None, st)
                | TokenFileRejected e => (Raise e, st)
                | TokenFileLoaded valid => (Return (Some valid), st)
                end);
     match creds with
     | Some true => api_call BuildService (sheets_build S)
     | _ => print MsgInvalidGoogleToken;; raise ValueError
     end)
    (fun e => Some (print (MsgSheetsInitFailed e);; raise e)).

Definition refresh_access_token : M W bool :=
  if existsb is_None (refresh_params cfg) then
    print MsgMissingZohoVariables;; mret false
  else if negb (env_truthy (gemini_api_key cfg)) then
    print MsgMissingGeminiKey;; mret false
  else if negb (env_truthy (SPREADSHEET_ID cfg)) then
    print MsgMissingSpreadsheetId;; mret false
  else
    try_except
      (data ← request PostToken (token_endpoint S);
       has_token ← lift (py_contains "access_token" data);
       if has_token : bool then
         access_token ← lift (py_item data "access_token");
         set_zoho_auth_token (ZohoOauthToken access_token);;
         set_Authorization_from_token;;
         print (MsgNewAccessToken (ZohoOauthToken access_token));;
         mret true
       else
         error ← lift (py_get data "error" (JStr "Unknown error"));
         print (MsgRefreshFailed error);;
         mret false)
      (except_RequestException (print MsgRefreshError;; mret false)).

(** One iteration of the [while True] of [fetch_file_ids]: whether the
    loop goes on, and the new [file_ids] and [offset].  The request is
    the first statement of the [try], so [file_ids] is still unchanged
    when the [except] clause runs. *)
Definition fetch_page (file_ids : list json) (offset : nat)
  : M W (bool * list json * nat) :=
  try_except
    (authorization ← get_Authorization;
     data ← request (GetFiles authorization limit offset)
                    (files_endpoint S authorization limit offset);
     files ← lift (py_get data "data" (JArr []));
     if negb (truthy files) then mret (false, file_ids, offset)
     else
       items ← lift (py_iter files);
       file_ids' ← lift (collect_ids items file_ids);
       n ← lift (py_len files);
       if (n <? limit)%nat then mret (false, file_ids', offset)
       else sleep 1;; mret (true, file_ids', (offset + limit)%nat))
    (except_RequestException
       (print MsgFetchError;; mret (false, file_ids, offset))).

Fixpoint fetch_loop (fuel : nat) (file_ids : list json) (offset : nat)
  : M W (list json) :=
  match fuel with
  | O => lift OutOfFuel
  | Datatypes.S fuel' =>
      '(continue, file_ids', offset') ← fetch_page file_ids offset;
      if continue : bool then fetch_loop fuel' file_ids' offset'
      else mret file_ids'
  end.

Definition fetch_file_ids (fuel : nat) : M W (list json) :=
  fetch_loop fuel [] 0%nat.

Definition extract_permalink_with_gemini (response_data : json) : M W json :=
  try_except
    (gemini_response ← request (PostGemini response_data)
                               (gemini_endpoint S response_data);
     candidates ← lift (py_get gemini_response "candidates" (JArr [JObj []]));
     candidate ← lift (py_first candidates);
     content ← lift (py_get candidate "content" (JObj []));
     parts ← lift (py_get content "parts" (JArr [JObj []]));
     part ← lift (py_first parts);
     text ← lift (py_get part "text" (JStr "None"));
     extracted_text ← lift (py_strip text);
     if String.eqb extracted_text "None" || String.eqb extracted_text "" then
       print MsgNoPermalinkExtracted;; mret JNull
     else if negb (matches_url_scheme extracted_text) then
       print (MsgInvalidUrl extracted_text);; mret JNull
     else
       print (MsgGeminiExtracted extracted_text);;
       mret (JStr extracted_text))
    (except_RequestException (print MsgGeminiError;; mret JNull)).

Definition set_permissions_and_get_permalink (fid : json)
  : M W permission_result :=
  try_except
    (authorization ← get_Authorization;
     response_data ← request (PostPermissions authorization fid)
                             (permissions_endpoint S authorization fid);
     print (MsgPermissionsSet fid response_data);;
     data ← lift (py_get response_data "data" (JObj []));
     attributes ← lift (py_get data "attributes" (JObj []));
     direct ← lift (py_get attributes "permalink" JNull);
     link ← (if truthy direct then
               print (MsgDirectPermalink fid direct);; mret direct
             else
               print (MsgUsingGemini fid);;
               extracted ← extract_permalink_with_gemini response_data;
               print (MsgGeminiPermalink fid extracted);;
               mret extracted);
     mret {| file_id := fid; permalink := link; success := true |})
    (except_RequestException
       (print (MsgProcessError fid);;
        mret {| file_id := fid; permalink := JNull; success := false |})).

(** The filtering loop of [append_to_google_sheet]. *)
Fixpoint filter_new (results : list (json * json)) (existing_ids : gset string)
    (values_to_append : list (json * json)) : M W (list (json * json)) :=
  match results with
  | [] => mret values_to_append
  | (fid, link) :: rest =>
      fresh ← lift (py_not_in fid existing_ids);
      if fresh : bool then
        print (MsgWillAppend fid link);;
        filter_new rest existing_ids (values_to_append ++ [(fid, link)])%list
      else
        print (MsgSkipping fid);;
        filter_new rest existing_ids values_to_append
  end.

Definition append_to_google_sheet (results : list (json * json)) : M W unit :=
  try_except
    (get_google_sheets_service;;
     result ← api_call SheetGet (sheets_values_get S);
     let existing_ids : gset string :=
       list_to_set (first_cells (default [] result)) in
     print (MsgExistingIds existing_ids);;
     values_to_append ← filter_new results existing_ids [];
     match values_to_append with
     | [] => print MsgNoNewIds
     | _ =>
         result ← api_call (SheetAppend values_to_append)
                           (sheets_values_append S values_to_append);
         updates ← lift (py_get result "updates" (JObj []));
         rows ← lift (py_get updates "updatedRows" (JNum 0));
         print (MsgAppended rows)
     end)
    (fun e =>
       match e with
       | HttpError => Some (print MsgSheetError)
       | _ => Some (print (MsgUnexpectedError e))
       end).

(** The [for file_id in file_ids] loop of [main]. *)
Fixpoint process_files (file_ids : list json) (results : list (json * json))
  : M W (list (json * json)) :=
  match file_ids with
  | [] => mret results
  | fid :: rest =>
      print (MsgProcessing fid);;
      result ← set_permissions_and_get_permalink fid;
      let results' :=
        if success result && truthy (permalink result)
        then (results ++ [(file_id result, permalink result)])%list
        else results in
      sleep 1;;
      process_files rest results'
  end.

Definition main (fuel : nat) : M W unit :=
  print MsgRefreshing;;
  refreshed ← refresh_access_token;
  if negb refreshed then
    print MsgExiting
  else
    print MsgFetching;;
    file_ids ← fetch_file_ids fuel;
    print (MsgFound (length file_ids));;
    results ← process_files file_ids [];
    match results with
    | [] => print MsgNoValidResults
    | _ => append_to_google_sheet results
    end.

End Script.

(** ** Shapes of the Gemini answer *)

(** The text of the first part of the first candidate, when every level of
    [{"candidates": [{"content": {"parts": [{"text": ...}]}}]}] is there. *)
Definition gemini_text (gemini_response : json) : option json :=
  match gemini_response with
  | JObj body =>
      match dict_lookup "candidates" body with
      | Some (JArr (JObj candidate :: _)) =>
          match dict_lookup "content" candidate with
          | Some (JObj content) =>
              match dict_lookup "parts" content with
              | Some (JArr (JObj part :: _)) => dict_lookup "text" part
              | _ => None
              end
          | _ => None
          end
      | _ => None
      end
  | _ => None
  end.

(** The body has no [candidates] key, or the first candidate has no
    [content], or that has no [parts], or the first part has no [text];
    the lists that are present are not empty. *)
Definition lacks_text (gemini_response : json) : bool :=
  match gemini_response with
  | JObj body =>
      match dict_lookup "candidates" body with
      | None => true
      | Some (JArr (JObj candidate :: _)) =>
          match dict_lookup "content" candidate with
          | None => true
          | Some (JObj content) =>
              match dict_lookup "parts" content with
              | None => true
              | Some (JArr (JObj part :: _)) =>
                  match dict_lookup "text" part with
                  | None => true
                  | Some _ => false
                  end
              | _ => false
              end
          | _ => false
          end
      | _ => false
      end
  | _ => false
  end.

(** ** Proof support *)

Ltac unfold_M :=
  unfold try_except, except_RequestException, mbind, M_bind, mret, M_ret,
    request, api_call, lift, raise, print, sleep, emit, get_Authorization,
    set_zoho_auth_token, set_Authorization_from_token in *.

(** Closes a goal [fst r <> OutOfFuel /\ exists evs, adds .. evs /\ Forall ..]
    on a computed run. *)
Ltac quiet_run :=
  split; [done|eexists; split; [done|by repeat constructor]].

(** Closes the goal of [append_filters] on a run, bound to [run], that has
    made its append request; [Hrows] gives the rows of such a trace. *)
Ltac after_append run Hrows :=
  subst run; simpl;
  eexists; split; [rewrite <- !app_assoc; reflexivity|];
  split; [|split; [discriminate|done]];
  rewrite Hrows; simpl; by rewrite ?app_nil_r.

(** ** Vocabulary of the properties *)

(** The body is an object with an [access_token] field. *)
Definition has_access_token (body : json) : bool :=
  match body with
  | JObj fields =>
      match dict_lookup "access_token" fields with
      | Some _ => true
      | None => false
      end
  | _ => false
  end.

Definition token_granted (r : http_result) : bool :=
  match r with
  | HttpOk body => has_access_token body
  | HttpFail => false
  end.

(** A network call of any kind. *)
Definition network_call (ev : event) : bool :=
  match ev with
  | Print _ | Sleep _ => false
  | _ => true
  end.

(** The events of listing, of processing a file and of synchronising. *)
Definition file_activity (ev : event) : bool :=
  match ev with
  | GetFiles _ _ _ | PostPermissions _ _ | PostGemini _
  | BuildService | SheetGet | SheetAppend _ => true
  | Print _ | Sleep _ | PostToken => false
  end.

(** The three tests that [refresh_access_token] makes before its request. *)
Definition config_rejected (cfg : Config) : bool :=
  existsb is_None (refresh_params cfg)
  || negb (env_truthy (gemini_api_key cfg))
  || negb (env_truthy (SPREADSHEET_ID cfg)).

(** The precondition as the specification words it: the five values are all
    present and not empty. *)
Definition config_complete (cfg : Config) : bool :=
  forallb env_truthy
    [ZOHO_REFRESH_TOKEN cfg; ZOHO_CLIENT_ID cfg; ZOHO_CLIENT_SECRET cfg;
     gemini_api_key cfg; SPREADSHEET_ID cfg].

(** The events that [m] adds to the trace when run from [st]. *)
Definition adds {W A} (m : M W A) (st : state W) (evs : list event) : Prop :=
  trace (snd (m st)) = (trace st ++ evs)%list.

(** A configuration whose client id is set to the empty string. *)
Definition cfg_empty_client_id : Config := {|
  ZOHO_REFRESH_TOKEN := Some "1000.refresh";
  ZOHO_CLIENT_ID := Some "";
  ZOHO_CLIENT_SECRET := Some "secret";
  gemini_api_key := Some "key";
  SPREADSHEET_ID := Some "sheet"
|}.

(** A configuration with the five values set. *)
Definition cfg_full : Config := {|
  ZOHO_REFRESH_TOKEN := Some "1000.refresh";
  ZOHO_CLIENT_ID := Some "1000.client";
  ZOHO_CLIENT_SECRET := Some "secret";
  gemini_api_key := Some "key";
  SPREADSHEET_ID := Some "sheet"
|}.

(** ** A concrete world

    The sheet is a list of rows of text cells below the header; the other
    services answer from fixed data.  It serves the examples and the
    witnesses; the general theorems quantify over every [Services]. *)

(** The text of a row [[file_id, permalink]], when both are strings. *)
Definition row_cells (row : json * json) : option (list string) :=
  match row with
  | (JStr a, JStr b) => Some [a; b]
  | _ => None
  end.

Fixpoint rows_cells (rows : list (json * json)) : option (list (list string)) :=
  match rows with
  | [] => Some []
  | row :: rest =>
      match row_cells row, rows_cells rest with
      | Some r, Some rs => Some (r :: rs)
      | _, _ => None
      end
  end.

(** Column A of a row as a values read returns it: an empty cell is left
    out. *)
Definition column_A (row : list string) : list string :=
  match row with
  | [] => []
  | a :: _ => if String.eqb a "" then [] else [a]
  end.

(** A read of [Sheet1!A2:A]: empty rows at the end are left out, and so is
    the [values] key when nothing remains. *)
Fixpoint column_rows (sheet : list (list string)) : list (list string) :=
  match sheet with
  | [] => []
  | row :: rest =>
      match column_A row, column_rows rest with
      | [], [] => []
      | r, rs => r :: rs
      end
  end.

Definition read_column (sheet : list (list string)) : option (list (list string)) :=
  match column_rows sheet with
  | [] => None
  | rows => Some rows
  end.

(** The answer of an append that stored [n] rows. *)
Definition appended_answer (n : nat) : json :=
  JObj [("updates", JObj [("updatedRows", JNum (Z.of_nat n))])].

(** A page of a folder: [limit] files from [offset] on. *)
Definition folder_page (files : list json) (lim offset : nat) : json :=
  JObj [("data", JArr (take lim (drop offset files)))].

Definition demo (token : http_result) (files : list json)
    (permissions : json -> http_result) (gemini : http_result)
    (google_token : token_file_state) : Services (list (list string)) := {|
  token_endpoint := fun w => (token, w);
  files_endpoint := fun _ lim offset w => (HttpOk (folder_page files lim offset), w);
  permissions_endpoint := fun _ fid w => (permissions fid, w);
  gemini_endpoint := fun _ w => (gemini, w);
  token_file := fun _ => google_token;
  sheets_build := fun w => (ApiOk tt, w);
  sheets_values_get := fun w => (ApiOk (read_column w), w);
  sheets_values_append := fun rows w =>
    match rows_cells rows with
    | Some cells => (ApiOk (appended_answer (length cells)), (w ++ cells)%list)
    | None => (ApiRaise HttpError, w)
    end
|}.

(** Bodies of the remote answers. *)
Definition token_body (t : string) : json := JObj [("access_token", JStr t)].

Definition file_record (fid : string) : json :=
  JObj [("id", JStr fid); ("type", JStr "files")].

Definition permission_body (link : string) : json :=
  JObj [("data", JObj [("attributes", JObj [("permalink", JStr link)])])].

Definition gemini_body (t : string) : json :=
  JObj [("candidates",
         JArr [JObj [("content", JObj [("parts", JArr [JObj [("text", JStr t)]])])]])].

(** [m] has no unbounded loop: it never runs out of iterations. *)
Definition fuel_free {W A} (m : M W A) : Prop :=
  forall st, fst (m st) <> OutOfFuel.

(** The Google token cannot be used: the file is absent, it is refused, or
    the credentials it holds are not valid. *)
Definition token_unusable (t : token_file_state) : bool :=
  match t with
  | TokenFileLoaded true => false
  | _ => true
  end.

(** A collected pair with a string identifier, as a row of [results]. *)
Definition row_of (p : string * json) : json * json := (JStr (fst p), snd p).

(** The rows that the append requests of [evs] carry. *)
Definition appended_rows (evs : list event) : list (json * json) :=
  flat_map (fun ev => match ev with SheetAppend values => values | _ => [] end) evs.

Definition is_append (ev : event) : bool :=
  match ev with SheetAppend _ => true | _ => false end.

(** The identifier [s] is in the column that a values read returned: it is
    the first cell of one of its rows. *)
Definition in_column (s : string) (result : option (list (list string))) : Prop :=
  exists row, row ∈ default [] result /\ head row = Some s.

(** A pair as [main] collects it, in text: the identifier is not empty and
    the link is a string. *)
Definition text_pair (p : string * json) : bool :=
  negb (String.eqb (fst p) "")
  && match snd p with JStr _ => true | _ => false end.

(** The example of the specification: the sheet holds [A] and [B], the run
    collected [A] and [C]. *)
Definition sheet_AB : list (list string) :=
  [["A"; "https://drive/a"]; ["B"; "https://drive/b"]].

Definition pairs_AC : list (string * json) := [("A", JStr "x"); ("C", JStr "y")].

Definition sheets_only : Services (list (list string)) :=
  demo HttpFail [] (fun _ => HttpFail) HttpFail (TokenFileLoaded true).

(** What [get_google_sheets_service] raises for a token that cannot be
    used, and what it prints before. *)
Definition credential_error (t : token_file_state) : exn :=
  match t with
  | TokenFileRejected e => e
  | _ => ValueError
  end.

Definition credential_report (t : token_file_state) : list message :=
  match t with
  | TokenFileRejected e => [MsgSheetsInitFailed e]
  | _ => [MsgInvalidGoogleToken; MsgSheetsInitFailed ValueError]
  end.

(** What the [except] clauses of [append_to_google_sheet] print for [e]. *)
Definition sheet_report (e : exn) : message :=
  match e with
  | HttpError => MsgSheetError
  | _ => MsgUnexpectedError e
  end.

(** A failure that is fatal to the run as a precondition: with a token that
    cannot be used, the run ends by an exception, or it ends without having
    listed, processed or synchronised anything (the way it ends when the
    token refresh fails). *)
Definition credential_failure_fatal {W} (S : Services W) (cfg : Config)
    (fuel : nat) (st : state W) : Prop :=
  token_unusable (token_file S (world st)) = true ->
  (exists e, fst (main S cfg fuel st) = Raise e)
  \/ (exists evs,
        adds (main S cfg fuel) st evs
        /\ Forall (fun ev => file_activity ev = false) evs).

(** A world in which everything works except the Google token, which is
    absent: one file, whose permission answer carries the link. *)
Definition no_google_token : Services (list (list string)) :=
  demo (HttpOk (token_body "t")) [file_record "f1"]
       (fun _ => HttpOk (permission_body "https://drive/f1"))
       HttpFail TokenFileMissing.

(** The same world with a valid Google token. *)
Definition all_working : Services (list (list string)) :=
  demo (HttpOk (token_body "t")) [file_record "f1"]
       (fun _ => HttpOk (permission_body "https://drive/f1"))
       HttpFail (TokenFileLoaded true).

(** A folder of three files; the permission request of the second fails. *)
Definition second_fails : Services (list (list string)) :=
  demo (HttpOk (token_body "t"))
       [file_record "f1"; file_record "f2"; file_record "f3"]
       (fun fid =>
          match fid with
          | JStr "f2" => HttpFail
          | JStr s => HttpOk (permission_body ("https://drive/" +:+ s))
          | _ => HttpFail
          end)
       HttpFail (TokenFileLoaded true).

(** The permission requests of a trace, in order. *)
Definition permission_requests (evs : list event) : list json :=
  flat_map (fun ev => match ev with PostPermissions _ fid => [fid] | _ => [] end) evs.

(** A Gemini service that answers every prompt with the text [t]. *)
Definition gemini_says (t : string) : Services (list (list string)) :=
  demo HttpFail [] (fun _ => HttpFail) (HttpOk (gemini_body t)) TokenFileMissing.

(** A Gemini service whose answer has the body [body]. *)
Definition gemini_answers (body : json) : Services (list (list string)) :=
  demo HttpFail [] (fun _ => HttpFail) (HttpOk body) TokenFileMissing.

(** ** Listing services *)

(** A file-listing service that answers the request for [lim] files from
    [offset] with the file records [pages lim offset] (each record given by
    its fields); nothing else is reachable. *)
Definition paged (pages : nat -> nat -> list (list (string * json)))
  : Services unit := {|
  token_endpoint := fun w => (HttpFail, w);
  files_endpoint := fun _ lim offset w =>
    (HttpOk (JObj [("data", JArr (map JObj (pages lim offset)))]), w);
  permissions_endpoint := fun _ _ w => (HttpFail, w);
  gemini_endpoint := fun _ w => (HttpFail, w);
  token_file := fun _ => TokenFileMissing;
  sheets_build := fun w => (ApiRaise HttpError, w);
  sheets_values_get := fun w => (ApiRaise HttpError, w);
  sheets_values_append := fun _ w => (ApiRaise HttpError, w)
|}.

(** A folder holding the file records [records]: a page is the window of
    [lim] records from [offset]. *)
Definition folder (records : list (list (string * json))) : Services unit :=
  paged (fun lim offset => take lim (drop offset records)).

(** The identifier of a file record, [None] (that is [JNull]) without one. *)
Definition record_id (record : list (string * json)) : json :=
  default JNull (dict_lookup "id" record).

(** The identifiers that a list of records carries, in order. *)
Definition ids_of (records : list (list (string * json))) : list json :=
  filter (fun x => truthy x = true) (map record_id records).

(** The listing requests of a trace, in order, as (limit, offset). *)
Definition list_requests (evs : list event) : list (nat * nat) :=
  flat_map (fun ev => match ev with GetFiles _ lim offset => [(lim, offset)] | _ => [] end)
           evs.

(** The events of listing [n] full pages from [offset] on. *)
Fixpoint full_pages (authorization : option auth) (n offset : nat) : list event :=
  match n with
  | O => []
  | Datatypes.S n' =>
      GetFiles authorization limit offset :: Sleep 1
      :: full_pages authorization n' (offset + limit)
  end.

(** The identifiers of [n] pages from [offset] on. *)
Fixpoint pages_ids (pages : nat -> nat -> list (list (string * json)))
    (n offset : nat) : list json :=
  match n with
  | O => []
  | Datatypes.S n' =>
      (ids_of (pages limit offset) ++ pages_ids pages n' (offset + limit))%list
  end.

(** 120 file records with the identifiers [f0] ... [f119]. *)
Definition records_120 : list (list (string * json)) :=
  map (fun i => [("id", JStr ("f" +:+ pretty i)); ("type", JStr "files")]) (seq 0 120).

(** [response_data.get('data', {}).get('attributes', {}).get('permalink')] *)
Definition direct_permalink (response_data : json) : outcome json :=
  match py_get response_data "data" (JObj []) with
  | Return data =>
      match py_get data "attributes" (JObj []) with
      | Return attributes => py_get attributes "permalink" JNull
      | Raise e => Raise e
      | OutOfFuel => OutOfFuel
      end
  | Raise e => Raise e
  | OutOfFuel => OutOfFuel
  end.

(** Every character of [s] is white space. *)
Fixpoint all_space (s : string) : bool :=
  match s with
  | EmptyString => true
  | String c s' => is_space c && all_space s'
  end.

Definition first_char (s : string) : option ascii :=
  match s with
  | EmptyString => None
  | String c _ => Some c
  end.

Fixpoint last_char (s : string) : option ascii :=
  match s with
  | EmptyString => None
  | String c EmptyString => Some c
  | String _ s' => last_char s'
  end.

(** [o] is not a white-space character (no character at all qualifies). *)
Definition not_space (o : option ascii) : Prop :=
  match o with
  | Some c => is_space c = false
  | None => True
  end.

(** A folder of 120 files whose second page cannot be fetched. *)
Definition second_page_fails : Services unit := {|
  token_endpoint := fun w => (HttpFail, w);
  files_endpoint := fun _ lim offset w =>
    if (offset =? 50)%nat then (HttpFail, w)
    else (HttpOk (JObj [("data", JArr (map JObj (take lim (drop offset records_120))))]), w);
  permissions_endpoint := fun _ _ w => (HttpFail, w);
  gemini_endpoint := fun _ w => (HttpFail, w);
  token_file := fun _ => TokenFileMissing;
  sheets_build := fun w => (ApiRaise HttpError, w);
  sheets_values_get := fun w => (ApiRaise HttpError, w);
  sheets_values_append := fun _ w => (ApiRaise HttpError, w)
|}.

(** Every value that [m] returns satisfies [P]. *)
Definition returns {W A} (m : M W A) (P : A -> Prop) : Prop :=
  forall st a, fst (m st) = Return a -> P a.

(** ** A logic of runs *)

(** Run from a state whose [Authorization] header is [a], [m] leaves the
    two globals as they are and adds only events that satisfy [P]. *)
Definition emits {W A} (a : option auth) (m : M W A) (P : event -> Prop) : Prop :=
  forall st, zoho_headers_Authorization st = a ->
    zoho_auth_token (snd (m st)) = zoho_auth_token st
    /\ zoho_headers_Authorization (snd (m st)) = a
    /\ exists evs, trace (snd (m st)) = (trace st ++ evs)%list /\ Forall P evs.

(** A request to the WorkDrive API carries the header [a]. *)
Definition storage_authorized (a : option auth) (ev : event) : Prop :=
  match ev with
  | GetFiles a' _ _ | PostPermissions a' _ => a' = a
  | _ => True
  end.

(** The events of the lister: requests for windows of [limit] files under
    the header [a], sleeps and the error report. *)
Definition lister_event (a : option auth) (ev : event) : Prop :=
  match ev with
  | GetFiles a' lim _ => a' = a /\ lim = limit
  | Sleep _ | Print _ => True
  | _ => False
  end.

(** The events of processing the files: permission requests under the
    header [a], Gemini requests, sleeps and prints. *)
Definition processing_event (a : option auth) (ev : event) : Prop :=
  match ev with
  | PostPermissions a' _ => a' = a
  | PostGemini _ | Sleep _ | Print _ => True
  | _ => False
  end.

(** The events of the synchroniser: calls of the Sheets client and prints. *)
Definition sheet_event (ev : event) : Prop :=
  match ev with
  | BuildService | SheetGet | SheetAppend _ | Print _ => True
  | _ => False
  end.

Definition is_print (ev : event) : Prop :=
  match ev with Print _ => True | _ => False end.

(** What follows the request in an iteration of [fetch_file_ids]. *)
Definition after_listing {W} (file_ids : list json) (offset : nat) (data : json)
  : M W (bool * list json * nat) :=
  files ← lift (py_get data "data" (JArr []));
  if negb (truthy files) then mret (false, file_ids, offset)
  else
    items ← lift (py_iter files);
    file_ids' ← lift (collect_ids items file_ids);
    n ← lift (py_len files);
    if (n <? limit)%nat then mret (false, file_ids', offset)
    else sleep 1;; mret (true, file_ids', (offset + limit)%nat).

(** What follows the request in [set_permissions_and_get_permalink]. *)
Definition after_permissions {W} (S : Services W) (fid response_data : json)
  : M W permission_result :=
  print (MsgPermissionsSet fid response_data);;
  data ← lift (py_get response_data "data" (JObj []));
  attributes ← lift (py_get data "attributes" (JObj []));
  direct ← lift (py_get attributes "permalink" JNull);
  link ← (if truthy direct then
            print (MsgDirectPermalink fid direct);; mret direct
          else
            print (MsgUsingGemini fid);;
            extracted ← extract_permalink_with_gemini S response_data;
            print (MsgGeminiPermalink fid extracted);;
            mret extracted);
  mret {| file_id := fid; permalink := link; success := true |}.

(** The value is [None] or a string that starts with [http://] or
    [https://] and has no white space at either end. *)
Definition url_or_none (x : json) : Prop :=
  x = JNull
  \/ exists s, x = JStr s /\ matches_url_scheme s = true /\ strip s = s.

(** A value that [in] cannot look up in a set: a list or a dictionary. *)
Definition unhashable (x : json) : bool :=
  match x with
  | JArr _ | JObj _ => true
  | _ => false
  end.

(** The sleeps of a trace, in order, by their duration in seconds. *)
Definition sleep_events (evs : list event) : list nat :=
  flat_map (fun ev => match ev with Sleep n => [n] | _ => [] end) evs.

(** What [main] does once the token is refreshed. *)
Definition after_refresh {W} (S : Services W) (fuel : nat) : M W unit :=
  print MsgFetching;;
  file_ids ← fetch_file_ids S fuel;
  print (MsgFound (length file_ids));;
  results ← process_files S file_ids [];
  match results with
  | [] => print MsgNoValidResults
  | _ => append_to_google_sheet S results
  end.

(** A request to the WorkDrive API carries a bearer value, the one that the
    header [final] holds. *)
Definition carries_token (final : option auth) (ev : event) : Prop :=
  match ev with
  | GetFiles a _ _ | PostPermissions a _ =>
      (exists t, a = Some (ZohoOauthToken t)) /\ a = final
  | _ => True
  end.

(** A print or a Gemini request. *)
Definition gemini_or_print (ev : event) : Prop :=
  match ev with
  | Print _ | PostGemini _ => True
  | _ => False
  end.

Definition is_object (x : json) : bool :=
  match x with JObj _ => true | _ => false end.

(** A listing body that the lister cannot read: it is not an object, or
    its [data] list holds an entry that is not an object. *)
Definition listing_malformed (body : json) : bool :=
  match body with
  | JObj fields =>
      match dict_lookup "data" fields with
      | Some (JArr items) => existsb (fun item => negb (is_object item)) items
      | _ => false
      end
  | _ => true
  end.


(** The events of the synchroniser short of the append request. *)
Definition reading_event (ev : event) : Prop :=
  match ev with
  | BuildService | SheetGet | Print _ => True
  | _ => False
  end.


(** Run from a state whose [Authorization] header is [a], [m] leaves the
    header as it is and adds a list of events that satisfies [T]. *)
Definition runs {W A} (a : option auth) (m : M W A) (T : list event -> Prop) : Prop :=
  forall st, zoho_headers_Authorization st = a ->
    zoho_headers_Authorization (snd (m st)) = a
    /\ exists evs, trace (snd (m st)) = (trace st ++ evs)%list /\ T evs.

(** Events that satisfy [P], followed by a list that satisfies [T]. *)
Definition followed_by (P : event -> Prop) (T : list event -> Prop)
    (evs : list event) : Prop :=
  exists evs1 evs2, evs = (evs1 ++ evs2)%list /\ Forall P evs1 /\ T evs2.


(** [core] is the text [t] with the white space at its two ends removed:
    [t] is [core] between two runs of white space, and [core] neither
    starts nor ends with a white-space character. *)
Definition trims_to (t core : string) : Prop :=
  exists l r,
    t = l +:+ core +:+ r
    /\ all_space l = true /\ all_space r = true
    /\ not_space (first_char core) /\ not_space (last_char core).

(** * Properties *)

(** ** The link extractor *)

Example strip_ex : strip "  https://x.y/z
 " = "https://x.y/z".
Proof. reflexivity. Qed.

Section Extractor.
Context {W : Type} (S : Services W).

(** What the parsing steps of [extract_permalink_with_gemini] make of a
    text [t]. *)
Lemma extract_text (response_data gemini_response : json) (t : string)
    (st : state W) (w' : W) :
  gemini_endpoint S response_data (world st) = (HttpOk gemini_response, w') ->
  gemini_text gemini_response = Some (JStr t) ->
  fst (extract_permalink_with_gemini S response_data st)
  = Return (if String.eqb (strip t) "None" || String.eqb (strip t) ""
            then JNull
            else if matches_url_scheme (strip t) then JStr (strip t)
            else JNull).
Proof.
  intros Hcall Htext.
  unfold extract_permalink_with_gemini. unfold_M. rewrite Hcall.
  destruct gemini_response as [| | | | |body]; try discriminate.
  simpl in *.
  destruct (dict_lookup "candidates" body) as [[| | | |[|[| | | | |c] cs]|]|];
    try discriminate.
  simpl in *.
  destruct (dict_lookup "content" c) as [[| | | | |content]|]; try discriminate.
  simpl in *.
  destruct (dict_lookup "parts" content) as [[| | | |[|[| | | | |p] ps]|]|];
    try discriminate.
  simpl in *. rewrite Htext. simpl.
  destruct (String.eqb (strip t) "None" || String.eqb (strip t) ""); [done|].
  destruct (matches_url_scheme (strip t)); done.
Qed.

(** C10: when the body of the Gemini answer has no [candidates] key, or the
    first candidate has no [content], or the content has no [parts], or the
    first part has no [text] (the lists that are present being non-empty),
    the extractor does not raise: the lookups fall back on their defaults,
    the text is ["None"], and the function returns no link. *)
Theorem extract_defaults_to_none (response_data gemini_response : json)
    (st : state W) (w' : W) :
  gemini_endpoint S response_data (world st) = (HttpOk gemini_response, w') ->
  lacks_text gemini_response = true ->
  fst (extract_permalink_with_gemini S response_data st) = Return JNull.
Proof.
  intros Hcall Hlacks.
  unfold extract_permalink_with_gemini. unfold_M. rewrite Hcall.
  destruct gemini_response as [| | | | |body]; try discriminate.
  simpl in *.
  destruct (dict_lookup "candidates" body) as [[| | | |[|[| | | | |c] cs]|]|];
    try discriminate; simpl in *; [|done].
  destruct (dict_lookup "content" c) as [[| | | | |content]|];
    try discriminate; simpl in *; [|done].
  destruct (dict_lookup "parts" content) as [[| | | |[|[| | | | |p] ps]|]|];
    try discriminate; simpl in *; [|done].
  destruct (dict_lookup "text" p); [discriminate|done].
Qed.

End Extractor.

(** ** The token refresher *)

Section Refresher.
Context {W : Type} (S : Services W) (cfg : Config).

Lemma refresh_false_keeps_globals (st st' : state W) :
  refresh_access_token S cfg st = (Return false, st') ->
  zoho_auth_token st' = zoho_auth_token st
  /\ zoho_headers_Authorization st' = zoho_headers_Authorization st.
Proof.
  unfold refresh_access_token.
  destruct (existsb is_None (refresh_params cfg)).
  { unfold_M. intros [= <-]. done. }
  destruct (negb (env_truthy (gemini_api_key cfg))).
  { unfold_M. intros [= <-]. done. }
  destruct (negb (env_truthy (SPREADSHEET_ID cfg))).
  { unfold_M. intros [= <-]. done. }
  unfold_M.
  destruct (token_endpoint S (world st)) as [[|body] w'].
  { intros [= <-]. done. }
  destruct body as [| | |s|items|fields]; simpl; try discriminate.
  - destruct (is_substring "access_token" s); simpl; discriminate.
  - destruct (existsb (is_str "access_token") items); simpl; discriminate.
  - destruct (dict_lookup "access_token" fields); simpl.
    + discriminate.
    + intros [= <-]. done.
Qed.

(** The configuration tests come first: a rejected configuration costs
    one [print] and nothing else. *)
Lemma refresh_config_rejected (st : state W) :
  config_rejected cfg = true ->
  exists m,
    refresh_access_token S cfg st
    = (Return false,
       State (world st) (zoho_auth_token st) (zoho_headers_Authorization st)
             (trace st ++ [Print m])).
Proof.
  unfold config_rejected, refresh_access_token. intros Hrej.
  destruct (existsb is_None (refresh_params cfg)); [by eexists|].
  destruct (negb (env_truthy (gemini_api_key cfg))); [by eexists|].
  destruct (negb (env_truthy (SPREADSHEET_ID cfg))); [by eexists|].
  discriminate.
Qed.

(** An accepted configuration always leads to the token request. *)
Lemma refresh_config_accepted (st : state W) :
  config_rejected cfg = false ->
  exists evs, adds (refresh_access_token S cfg) st (PostToken :: evs).
Proof.
  unfold config_rejected, refresh_access_token, adds. intros Hacc.
  destruct (existsb is_None (refresh_params cfg)); [discriminate|].
  destruct (negb (env_truthy (gemini_api_key cfg))); [discriminate|].
  destruct (negb (env_truthy (SPREADSHEET_ID cfg))); [discriminate|].
  unfold_M.
  destruct (token_endpoint S (world st)) as [[|body] w']; simpl.
  { rewrite <- app_assoc. by eexists. }
  destruct body as [| | |s|items|fields]; simpl; try by eexists.
  - destruct (is_substring "access_token" s); simpl; by eexists.
  - destruct (existsb (is_str "access_token") items); simpl; by eexists.
  - destruct (dict_lookup "access_token" fields); simpl;
      rewrite <- app_assoc; by eexists.
Qed.

(** [refresh_access_token] returns [True] only for a granted token. *)
Lemma refresh_true_granted (st st' : state W) :
  refresh_access_token S cfg st = (Return true, st') ->
  token_granted (fst (token_endpoint S (world st))) = true.
Proof.
  unfold refresh_access_token.
  destruct (existsb is_None (refresh_params cfg)); [discriminate|].
  destruct (negb (env_truthy (gemini_api_key cfg))); [discriminate|].
  destruct (negb (env_truthy (SPREADSHEET_ID cfg))); [discriminate|].
  unfold_M.
  destruct (token_endpoint S (world st)) as [[|body] w']; [discriminate|].
  destruct body as [| | |s|items|fields]; simpl; try discriminate.
  - destruct (is_substring "access_token" s); simpl; discriminate.
  - destruct (existsb (is_str "access_token") items); simpl; discriminate.
  - destruct (dict_lookup "access_token" fields); simpl; [done|discriminate].
Qed.

(** It has no loop, and the only remote call it makes is the token
    request. *)
Lemma refresh_quiet (st : state W) :
  fst (refresh_access_token S cfg st) <> OutOfFuel
  /\ exists evs,
       adds (refresh_access_token S cfg) st evs
       /\ Forall (fun ev => file_activity ev = false) evs.
Proof.
  unfold refresh_access_token, adds.
  destruct (existsb is_None (refresh_params cfg)); [quiet_run|].
  destruct (negb (env_truthy (gemini_api_key cfg))); [quiet_run|].
  destruct (negb (env_truthy (SPREADSHEET_ID cfg))); [quiet_run|].
  unfold_M.
  destruct (token_endpoint S (world st)) as [[|body] w']; simpl.
  { split; [done|]. rewrite <- app_assoc.
    eexists; split; [done|by repeat constructor]. }
  destruct body as [| | |s|items|fields]; simpl; try quiet_run.
  - destruct (is_substring "access_token" s); simpl; quiet_run.
  - destruct (existsb (is_str "access_token") items); simpl; quiet_run.
  - destruct (dict_lookup "access_token" fields); simpl;
      (split; [done|]); rewrite <- app_assoc;
      (eexists; split; [done|by repeat constructor]).
Qed.

End Refresher.

(** C9: whenever [refresh_access_token] returns [False], the two globals
    [zoho_auth_token] and [zoho_headers['Authorization']] keep the values
    they had before the call; from the state at import they are still
    [None]. *)
Theorem refresh_false_leaves_authorization {W} (S : Services W) (cfg : Config)
    (st st' : state W) :
  refresh_access_token S cfg st = (Return false, st') ->
  (zoho_auth_token st' = zoho_auth_token st
   /\ zoho_headers_Authorization st' = zoho_headers_Authorization st)
  /\ (forall w, st = initial w ->
        zoho_auth_token st' = None /\ zoho_headers_Authorization st' = None).
Proof.
  intros Hrun. pose proof (refresh_false_keeps_globals S cfg st st' Hrun) as [Ht Hh].
  split; [done|]. intros w ->. by rewrite Ht, Hh.
Qed.

Lemma refresh_false_leaves_authorization_witness :
  let S := demo (HttpOk (JObj [("error", JStr "invalid_code")])) [] (fun _ => HttpFail)
                HttpFail TokenFileMissing in
  let st' := State [] None None [PostToken; Print (MsgRefreshFailed (JStr "invalid_code"))] in
  refresh_access_token S cfg_full (initial []) = (Return false, st')
  /\ zoho_auth_token st' = None /\ zoho_headers_Authorization st' = None.
Proof.
  intros S st'. split; [reflexivity|].
  apply (refresh_false_leaves_authorization S cfg_full (initial []) st');
    reflexivity.
Defined.

(** C6, at a client id that is set but empty: the tests of
    [refresh_access_token] let the configuration through and the token
    request is made, whatever the services answer. *)
Theorem refresh_empty_client_id_requests {W} (S : Services W) (st : state W) :
  config_complete cfg_empty_client_id = false
  /\ exists evs, adds (refresh_access_token S cfg_empty_client_id) st (PostToken :: evs).
Proof.
  split; [reflexivity|]. by apply refresh_config_accepted.
Qed.

(** ** The orchestrator, when the token is not granted *)

Section TokenRefused.
Context {W : Type} (S : Services W) (cfg : Config).

(** [main] after a refresh that returned [False]: one more [print]. *)
Lemma main_refresh_false (fuel : nat) (st st1 : state W) :
  refresh_access_token S cfg
    (State (world st) (zoho_auth_token st) (zoho_headers_Authorization st)
           (trace st ++ [Print MsgRefreshing]))
  = (Return false, st1) ->
  main S cfg fuel st
  = (Return tt,
     State (world st1) (zoho_auth_token st1) (zoho_headers_Authorization st1)
           (trace st1 ++ [Print MsgExiting])).
Proof.
  intros Hrefresh. unfold main. unfold_M. simpl. by rewrite Hrefresh.
Qed.

Lemma main_refresh_raise (fuel : nat) (st st1 : state W) (e : exn) :
  refresh_access_token S cfg
    (State (world st) (zoho_auth_token st) (zoho_headers_Authorization st)
           (trace st ++ [Print MsgRefreshing]))
  = (Raise e, st1) ->
  main S cfg fuel st = (Raise e, st1).
Proof.
  intros Hrefresh. unfold main. unfold_M. simpl. by rewrite Hrefresh.
Qed.

Lemma main_not_granted (fuel : nat) (st : state W) :
  token_granted (fst (token_endpoint S (world st))) = false ->
  (fst (main S cfg fuel st) = Return tt
   \/ exists e, fst (main S cfg fuel st) = Raise e)
  /\ exists evs,
       adds (main S cfg fuel) st evs
       /\ Forall (fun ev => file_activity ev = false) evs.
Proof.
  intros Hdenied.
  set (st0 := State (world st) (zoho_auth_token st)
                    (zoho_headers_Authorization st)
                    (trace st ++ [Print MsgRefreshing])).
  destruct (refresh_quiet S cfg st0) as [Hfuel (evs & Hadds & Hquiet)].
  unfold adds in *.
  destruct (refresh_access_token S cfg st0) as [[[]|e|] st1] eqn:Hrefresh;
    simpl in *.
  - apply refresh_true_granted in Hrefresh. simpl in Hrefresh. congruence.
  - rewrite (main_refresh_false fuel st st1 Hrefresh). simpl.
    split; [by left|].
    exists (Print MsgRefreshing :: evs ++ [Print MsgExiting])%list. split.
    + rewrite Hadds. by rewrite <- !app_assoc.
    + constructor; [done|]. apply Forall_app. split; [done|].
      by repeat constructor.
  - rewrite (main_refresh_raise fuel st st1 e Hrefresh). simpl.
    split; [right; by eexists|].
    exists (Print MsgRefreshing :: evs). split.
    + rewrite Hadds. by rewrite <- !app_assoc.
    + by constructor.
  - done.
Qed.

(** With an accepted configuration, a failed request or an object
    without the field ends the run by the early [return] of [main]. *)
Lemma main_token_refused (fuel : nat) (st : state W) (r : http_result) (w' : W) :
  config_rejected cfg = false ->
  token_endpoint S (world st) = (r, w') ->
  forall m,
    (r = HttpFail /\ m = MsgRefreshError
     \/ exists fields,
          r = HttpOk (JObj fields)
          /\ dict_lookup "access_token" fields = None
          /\ m = MsgRefreshFailed
                   (default (JStr "Unknown error") (dict_lookup "error" fields))) ->
    main S cfg fuel st
    = (Return tt,
       State w' (zoho_auth_token st) (zoho_headers_Authorization st)
             (trace st ++ [Print MsgRefreshing; PostToken; Print m;
                           Print MsgExiting])).
Proof.
  unfold config_rejected. intros Hacc Hcall m Hcase.
  unfold main, refresh_access_token.
  destruct (existsb is_None (refresh_params cfg)); [discriminate|].
  destruct (negb (env_truthy (gemini_api_key cfg))); [discriminate|].
  destruct (negb (env_truthy (SPREADSHEET_ID cfg))); [discriminate|].
  unfold_M. simpl. rewrite Hcall.
  destruct Hcase as [[-> ->]|(fields & -> & Hnone & ->)]; simpl.
  - by rewrite <- !app_assoc.
  - rewrite Hnone. simpl. by rewrite <- !app_assoc.
Qed.

End TokenRefused.

(** C5: if the token request fails, or its body has no [access_token]
    field, the run stops before listing: [main] ends (by its early
    [return], or by the exception of a body that is not an object) without
    a listing request, a permission request or any later step, whatever
    the iteration budget of the listing loop; with an accepted
    configuration and a failed request or an object body, the trace is the
    token request, its report and ["Exiting"]. *)
Theorem token_failure_aborts_before_listing {W} (S : Services W) (cfg : Config)
    (fuel : nat) (st : state W) :
  token_granted (fst (token_endpoint S (world st))) = false ->
  ((fst (main S cfg fuel st) = Return tt
    \/ exists e, fst (main S cfg fuel st) = Raise e)
   /\ exists evs,
        adds (main S cfg fuel) st evs
        /\ Forall (fun ev => file_activity ev = false) evs)
  /\ (config_rejected cfg = false ->
      match fst (token_endpoint S (world st)) with
      | HttpFail | HttpOk (JObj _) =>
          exists m,
            fst (main S cfg fuel st) = Return tt
            /\ adds (main S cfg fuel) st
                 [Print MsgRefreshing; PostToken; Print m; Print MsgExiting]
      | HttpOk _ => True
      end).
Proof.
  intros Hdenied. split; [by apply main_not_granted|].
  intros Hacc.
  destruct (token_endpoint S (world st)) as [r w'] eqn:Hcall. simpl in *.
  destruct r as [|body].
  - exists MsgRefreshError. unfold adds.
    rewrite (main_token_refused S cfg fuel st HttpFail w' Hacc Hcall MsgRefreshError);
      [done|by left].
  - destruct body as [| | | | |fields]; try done.
    simpl in Hdenied.
    destruct (dict_lookup "access_token" fields) eqn:Hfield; [discriminate|].
    eexists. unfold adds.
    erewrite (main_token_refused S cfg fuel st _ w' Hacc Hcall); [done|].
    right. by exists fields.
Qed.

Lemma token_failure_aborts_before_listing_witness :
  let S := demo (HttpOk (JObj [("error", JStr "invalid_code")]))
                [file_record "f1"] (fun _ => HttpOk (permission_body "https://x/f1"))
                HttpFail (TokenFileLoaded true) in
  token_granted (fst (token_endpoint S (world (initial [])))) = false
  /\ (fst (main S cfg_full 5 (initial [])) = Return tt
      \/ exists e, fst (main S cfg_full 5 (initial [])) = Raise e)
  /\ exists evs,
       adds (main S cfg_full 5) (initial []) evs
       /\ Forall (fun ev => file_activity ev = false) evs.
Proof.
  intros S. split; [reflexivity|].
  apply (token_failure_aborts_before_listing S cfg_full 5 (initial [])).
  reflexivity.
Defined.

(** ** Code without loops never runs out of iterations *)

Section FuelFree.
Context {W : Type}.

Lemma fuel_free_ret {A} (a : A) : fuel_free (mret a : M W A).
Proof. by intros st. Qed.

Lemma fuel_free_bind {A B} (m : M W A) (k : A -> M W B) :
  fuel_free m -> (forall a, fuel_free (k a)) -> fuel_free (m ≫= k).
Proof.
  intros Hm Hk st. unfold mbind, M_bind. specialize (Hm st).
  destruct (m st) as [[a|e|] st']; simpl in *; [apply Hk|done|done].
Qed.

Lemma fuel_free_lift {A} (o : outcome A) :
  o <> OutOfFuel -> fuel_free (lift o : M W A).
Proof. by intros Ho st. Qed.

Lemma fuel_free_raise {A} (e : exn) : fuel_free (raise e : M W A).
Proof. by intros st. Qed.

Lemma fuel_free_emit (ev : event) : fuel_free (emit ev : M W unit).
Proof. by intros st. Qed.

Lemma fuel_free_print (m : message) : fuel_free (print m : M W unit).
Proof. apply fuel_free_emit. Qed.

Lemma fuel_free_api_call {A} (ev : event) (call : W -> api_result A * W) :
  fuel_free (api_call ev call).
Proof.
  intros st. unfold api_call. by destruct (call (world st)) as [[a|e] w'].
Qed.

Lemma fuel_free_try_except {A} (body : M W A) (handlers : exn -> option (M W A)) :
  fuel_free body ->
  (forall e h, handlers e = Some h -> fuel_free h) ->
  fuel_free (try_except body handlers).
Proof.
  intros Hbody Hh st. unfold try_except. specialize (Hbody st).
  destruct (body st) as [[a|e|] st']; simpl in *; [done| |done].
  destruct (handlers e) as [h|] eqn:He; [by eapply Hh|done].
Qed.

Lemma py_get_returns (x : json) (k : string) (d : json) :
  py_get x k d <> OutOfFuel.
Proof. by destruct x. Qed.

Lemma py_not_in_returns (x : json) (E : gset string) :
  py_not_in x E <> OutOfFuel.
Proof. by destruct x. Qed.

End FuelFree.

Create HintDb fuel.
#[export] Hint Resolve fuel_free_ret fuel_free_lift fuel_free_raise
  fuel_free_emit fuel_free_print fuel_free_api_call py_get_returns
  py_not_in_returns : fuel.

(** ** The sheet synchroniser *)

Section Synchroniser.
Context {W : Type} (S : Services W).

Lemma fuel_free_service : fuel_free (get_google_sheets_service S).
Proof.
  unfold get_google_sheets_service. apply fuel_free_try_except.
  - apply fuel_free_bind.
    + intros st. by destruct (token_file S (world st)).
    + intros [[]|]; eauto using fuel_free_bind with fuel.
  - intros e h [= <-]. eauto using fuel_free_bind with fuel.
Qed.

Lemma fuel_free_filter_new (results : list (json * json)) (E : gset string)
    (acc : list (json * json)) :
  fuel_free (filter_new (W:=W) results E acc).
Proof.
  revert acc. induction results as [|[fid link] rest IH]; intros acc; simpl.
  - auto with fuel.
  - apply fuel_free_bind; [auto with fuel|].
    intros []; apply fuel_free_bind; auto with fuel.
Qed.

(** C8: [append_to_google_sheet] always returns normally: whatever the
    token file holds, whatever the Google client returns or raises, and
    whatever the rows are, no exception leaves the function. *)
Theorem append_never_raises (results : list (json * json)) (st : state W) :
  fst (append_to_google_sheet S results st) = Return tt.
Proof.
  unfold append_to_google_sheet.
  match goal with
  | |- fst (try_except ?body ?handlers st) = _ =>
      assert (fuel_free body) as Hbody; [|
        unfold try_except; specialize (Hbody st);
        destruct (body st) as [[[]|e|] st']; simpl in *; [done| |done];
        by destruct e ]
  end.
  apply fuel_free_bind; [apply fuel_free_service|]. intros _.
  apply fuel_free_bind; [auto with fuel|]. intros result.
  apply fuel_free_bind; [auto with fuel|]. intros _.
  apply fuel_free_bind; [apply fuel_free_filter_new|].
  intros [|row rows]; [auto with fuel|].
  repeat (apply fuel_free_bind; [auto with fuel|intros ?]).
  auto with fuel.
Qed.

Lemma first_cells_spec (values : list (list string)) (s : string) :
  s ∈ first_cells values <-> exists row, row ∈ values /\ head row = Some s.
Proof.
  induction values as [|[|cell row] rest IH]; simpl.
  - split; [by intros ?%elem_of_nil|]. by intros (row & ?%elem_of_nil & _).
  - rewrite IH. split.
    + intros (row & Hin & Hhead). exists row. split; [by right|done].
    + intros (row & Hin & Hhead). apply elem_of_cons in Hin as [->|Hin];
        [done|]. by exists row.
  - rewrite elem_of_cons, IH. split.
    + intros [->|(r & Hin & Hhead)].
      * exists (cell :: row). split; [by left|done].
      * exists r. split; [by right|done].
    + intros (r & Hin & Hhead). apply elem_of_cons in Hin as [->|Hin].
      * left. simpl in Hhead. congruence.
      * right. by exists r.
Qed.

(** The filtering loop on rows with string identifiers: it keeps, in
    order, the rows whose identifier is not in the set, and only prints. *)
Lemma filter_new_rows (L : list (string * json)) (E : gset string)
    (acc : list (json * json)) (st : state W) :
  exists msgs,
    filter_new (map row_of L) E acc st
    = (Return (acc ++ map row_of (filter (fun p => fst p ∉ E) L))%list,
       State (world st) (zoho_auth_token st) (zoho_headers_Authorization st)
             (trace st ++ map Print msgs)).
Proof.
  revert acc st. induction L as [|[fid link] rest IH]; intros acc st.
  - exists []. simpl. rewrite !app_nil_r. by destruct st.
  - simpl. unfold_M. simpl. rewrite filter_cons. simpl.
    case_bool_decide as Hfresh.
    + rewrite decide_True by done. simpl.
      edestruct IH as [msgs ->].
      exists (MsgWillAppend (JStr fid) link :: msgs). simpl.
      rewrite <- !app_assoc. reflexivity.
    + rewrite decide_False by (by intros ?). simpl.
      edestruct IH as [msgs ->].
      exists (MsgSkipping (JStr fid) :: msgs). simpl.
      rewrite <- !app_assoc. reflexivity.
Qed.

Lemma appended_rows_app (evs1 evs2 : list event) :
  appended_rows (evs1 ++ evs2) = (appended_rows evs1 ++ appended_rows evs2)%list.
Proof. unfold appended_rows. apply flat_map_app. Qed.

Lemma appended_rows_prints (msgs : list message) :
  appended_rows (map Print msgs) = [].
Proof. by induction msgs. Qed.

Lemma no_append_prints (msgs : list message) :
  Forall (fun ev => is_append ev = false) (map Print msgs).
Proof. induction msgs; by constructor. Qed.

(** With a usable token the service is built, at the cost of one call. *)
Lemma service_ready (st : state W) (w1 : W) :
  token_file S (world st) = TokenFileLoaded true ->
  sheets_build S (world st) = (ApiOk tt, w1) ->
  get_google_sheets_service S st
  = (Return tt,
     State w1 (zoho_auth_token st) (zoho_headers_Authorization st)
           (trace st ++ [BuildService])).
Proof.
  intros Htoken Hbuild. unfold get_google_sheets_service. unfold_M.
  rewrite Htoken. simpl. by rewrite Hbuild.
Qed.

(** The synchroniser on rows with string identifiers, when the service
    is built and the column is read: the rows of its append request are
    the rows whose identifier the column does not hold, in order; there
    is no append request when no such row exists. *)
Lemma append_filters (L : list (string * json)) (st : state W) (w1 w2 : W)
    (result : option (list (list string))) :
  token_file S (world st) = TokenFileLoaded true ->
  sheets_build S (world st) = (ApiOk tt, w1) ->
  sheets_values_get S w1 = (ApiOk result, w2) ->
  let E : gset string := list_to_set (first_cells (default [] result)) in
  let new := map row_of (filter (fun p => fst p ∉ E) L) in
  exists evs,
    adds (append_to_google_sheet S (map row_of L)) st evs
    /\ appended_rows evs = new
    /\ (new = [] -> Forall (fun ev => is_append ev = false) evs)
    /\ world (snd (append_to_google_sheet S (map row_of L) st))
       = match new with
         | [] => w2
         | _ => snd (sheets_values_append S new w2)
         end.
Proof.
  intros Htoken Hbuild Hget E new. unfold adds.
  remember (append_to_google_sheet S (map row_of L) st) as run eqn:Hrun.
  unfold append_to_google_sheet in Hrun.
  unfold try_except at 1, mbind at 1, M_bind at 1 in Hrun.
  rewrite (service_ready st w1 Htoken Hbuild) in Hrun.
  unfold mbind at 1, M_bind at 1, api_call at 1 in Hrun. simpl in Hrun.
  rewrite Hget in Hrun.
  unfold mbind at 1, M_bind at 1, print at 1, emit at 1 in Hrun.
  simpl in Hrun. unfold mbind at 1, M_bind at 1 in Hrun.
  edestruct (filter_new_rows L E []) as [msgs Hfilter].
  rewrite Hfilter in Hrun. simpl in Hrun. fold E in Hrun. fold new in Hrun.
  destruct new as [|row rows] eqn:Hnew.
  - unfold_M. simpl in Hrun. subst run. simpl.
    eexists. split; [rewrite <- !app_assoc; reflexivity|]. split; [|split].
    + rewrite !appended_rows_app, appended_rows_prints. reflexivity.
    + intros _. repeat (apply Forall_app; split);
        try apply no_append_prints; by repeat constructor.
    + done.
  - assert (forall tr, appended_rows
              ([BuildService] ++ [SheetGet] ++ [Print (MsgExistingIds E)]
               ++ map Print msgs ++ [SheetAppend (row :: rows)] ++ tr)
            = (row :: rows ++ appended_rows tr)%list) as Hrows.
    { intros tr. rewrite !appended_rows_app, appended_rows_prints. simpl.
      by rewrite app_nil_r. }
    unfold_M. simpl in Hrun.
    destruct (sheets_values_append S (row :: rows) w2) as [[res|e] w3];
      simpl in Hrun.
    + destruct res as [| | | | |fields]; simpl in Hrun;
        try after_append run Hrows.
      destruct (default (JObj []) (dict_lookup "updates" fields))
        as [| | | | |updates]; simpl in Hrun; after_append run Hrows.
    + destruct e; simpl in Hrun; after_append run Hrows.
Qed.

End Synchroniser.

Lemma filter_all_present (L : list (string * json)) (E : gset string) :
  (forall p, p ∈ L -> fst p ∈ E) -> filter (fun p => fst p ∉ E) L = [].
Proof.
  induction L as [|p rest IH]; intros Hall; [done|].
  rewrite filter_cons_False.
  - apply IH. intros q Hq. apply Hall. by right.
  - intros Hfresh. apply Hfresh, Hall. by left.
Qed.



(** *** The synchroniser on the concrete sheet *)

Lemma column_rows_spec (sheet : list (list string)) (s : string) :
  (exists row, row ∈ column_rows sheet /\ head row = Some s)
  <-> s <> "" /\ exists row, row ∈ sheet /\ head row = Some s.
Proof.
  induction sheet as [|r rest IH]; simpl.
  - split; [by intros (row & ?%elem_of_nil & _)|].
    by intros (_ & row & ?%elem_of_nil & _).
  - assert ((exists row, row ∈ column_A r :: column_rows rest /\ head row = Some s)
            <-> s <> "" /\ exists row, row ∈ r :: rest /\ head row = Some s)
      as Hcons.
    { split.
      - intros (row & Hin & Hhead). apply elem_of_cons in Hin as [->|Hin].
        + destruct r as [|a r]; [done|]. simpl in Hhead.
          destruct (String.eqb_spec a ""); [done|]. simpl in Hhead.
          injection Hhead as ->. split; [done|].
          exists (s :: r). split; [by left|done].
        + destruct IH as [IH _].
          destruct IH as (Hne & row' & Hin' & Hhead'); [by exists row|].
          split; [done|]. exists row'. split; [by right|done].
      - intros (Hne & row & Hin & Hhead). apply elem_of_cons in Hin as [->|Hin].
        + exists (column_A r). split; [by left|].
          destruct r as [|a r]; [done|]. simpl in *. injection Hhead as ->.
          by destruct (String.eqb_spec s "").
        + destruct IH as [_ IH].
          destruct IH as (row' & Hin' & Hhead'); [split; [done|by exists row]|].
          exists row'. split; [by right|done]. }
    destruct (column_A r) as [|a col] eqn:Hcol; [|done].
    destruct (column_rows rest) as [|t ts] eqn:Hrest; [|done].
    rewrite <- Hcons. split.
    + by intros (row & ?%elem_of_nil & _).
    + intros (row & Hin & Hhead). apply elem_of_cons in Hin as [->|Hin]; [done|].
      by apply elem_of_nil in Hin.
Qed.

Lemma read_column_spec (sheet : list (list string)) (s : string) :
  in_column s (read_column sheet)
  <-> s <> "" /\ exists row, row ∈ sheet /\ head row = Some s.
Proof.
  rewrite <- column_rows_spec. unfold in_column, read_column.
  by destruct (column_rows sheet).
Qed.

Lemma rows_cells_heads (l : list (string * json)) :
  forallb text_pair l = true ->
  exists cells,
    rows_cells (map row_of l) = Some cells
    /\ forall p, p ∈ l -> exists row, row ∈ cells /\ head row = Some (fst p).
Proof.
  induction l as [|[fid link] rest IH]; simpl; intros Hall.
  - exists []. split; [done|]. by intros p ?%elem_of_nil.
  - apply andb_prop in Hall as [Hp Hrest].
    destruct (IH Hrest) as (cells & -> & Hheads).
    unfold text_pair in Hp. simpl in Hp.
    destruct link as [| | |t| |]; try by rewrite andb_false_r in Hp.
    exists ([fid; t] :: cells). split; [done|].
    intros p [->|Hin]%elem_of_cons.
    + exists [fid; t]. split; [by left|done].
    + destruct (Hheads p Hin) as (row & Hrow & Hhead).
      exists row. split; [by right|done].
Qed.

Lemma forallb_filter_text (l : list (string * json)) (E : gset string) :
  forallb text_pair l = true ->
  forallb text_pair (filter (fun p => fst p ∉ E) l) = true.
Proof.
  rewrite !forallb_forall. intros Hall p Hp. apply Hall.
  apply list_elem_of_In. apply list_elem_of_In in Hp.
  by apply list_elem_of_filter in Hp as [_ Hp].
Qed.

Lemma demo_append_keeps (token : http_result) (files : list json)
    (permissions : json -> http_result) (gemini : http_result)
    (google_token : token_file_state) (rows : list (json * json))
    (w : list (list string)) (row : list string) :
  row ∈ w ->
  row ∈ snd (sheets_values_append
               (demo token files permissions gemini google_token) rows w).
Proof.
  intros Hrow. simpl. destruct (rows_cells rows); simpl; [|done].
  apply elem_of_app. by left.
Qed.

Lemma demo_append_adds (token : http_result) (files : list json)
    (permissions : json -> http_result) (gemini : http_result)
    (google_token : token_file_state) (rows : list (json * json))
    (w cells : list (list string)) :
  rows_cells rows = Some cells ->
  snd (sheets_values_append
         (demo token files permissions gemini google_token) rows w)
  = (w ++ cells)%list.
Proof. intros Hcells. simpl. by rewrite Hcells. Qed.

(** X8: on the concrete sheet, which stores the appended text as it is, a
    second call with the same pairs finds all their identifiers in the
    column: it makes no append request and leaves the sheet as it is. *)
Theorem demo_second_run (token : http_result) (files : list json)
    (permissions : json -> http_result) (gemini : http_result)
    (L : list (string * json)) (st : state (list (list string))) :
  forallb text_pair L = true ->
  let S := demo token files permissions gemini (TokenFileLoaded true) in
  let st1 := snd (append_to_google_sheet S (map row_of L) st) in
  exists evs2,
    adds (append_to_google_sheet S (map row_of L)) st1 evs2
    /\ Forall (fun ev => is_append ev = false) evs2
    /\ world (snd (append_to_google_sheet S (map row_of L) st1)) = world st1.
Proof.
  intros Htext S st1.
  destruct (append_filters S L st (world st) (world st) (read_column (world st))
              eq_refl eq_refl eq_refl) as (evs & _ & _ & _ & Hworld).
  fold st1 in Hworld.
  destruct (append_filters S L st1 (world st1) (world st1)
              (read_column (world st1)) eq_refl eq_refl eq_refl)
    as (evs2 & Hadds2 & _ & Hnone2 & Hworld2).
  set (E := list_to_set (first_cells (default [] (read_column (world st))))
            : gset string) in *.
  assert (filter (fun p => fst p ∉ list_to_set (C:=gset string)
                     (first_cells (default [] (read_column (world st1))))) L = [])
    as Hempty.
  { apply filter_all_present. intros p Hp.
    rewrite elem_of_list_to_set, first_cells_spec.
    apply read_column_spec. split.
    { rewrite forallb_forall in Htext.
      apply list_elem_of_In, Htext, andb_prop in Hp as [Hne _].
      intros Heq. rewrite Heq in Hne. done. }
    destruct (decide (fst p ∈ E)) as [Hin|Hout].
    - unfold E in Hin. rewrite elem_of_list_to_set, first_cells_spec in Hin.
      apply read_column_spec in Hin as (_ & row & Hrow & Hhead).
      exists row. split; [|done]. rewrite Hworld.
      destruct (map row_of (filter _ L)); [done|].
      by apply demo_append_keeps.
    - assert (p ∈ filter (fun p => fst p ∉ E) L) as Hnew
        by by apply list_elem_of_filter.
      destruct (rows_cells_heads _ (forallb_filter_text L E Htext))
        as (cells & Hcells & Hheads).
      destruct (Hheads p Hnew) as (row & Hrow & Hhead).
      exists row. split; [|done]. rewrite Hworld.
      destruct (map row_of (filter _ L)) eqn:Hmap.
      + apply (f_equal length) in Hmap. rewrite length_map in Hmap.
        destruct (filter _ L); [by apply elem_of_nil in Hnew|done].
      + unfold S. rewrite (demo_append_adds _ _ _ _ _ _ _ _ Hcells).
        apply elem_of_app. by right. }
  rewrite Hempty in Hnone2, Hworld2. simpl in *.
  exists evs2. split; [done|]. split; [by apply Hnone2|done].
Qed.

Lemma demo_second_run_witness :
  let L := pairs_AC in
  let st1 := snd (append_to_google_sheet sheets_only (map row_of L) (initial sheet_AB)) in
  forallb text_pair L = true
  /\ world st1 = [["A"; "https://drive/a"]; ["B"; "https://drive/b"]; ["C"; "y"]]
  /\ exists evs2,
       adds (append_to_google_sheet sheets_only (map row_of L)) st1 evs2
       /\ Forall (fun ev => is_append ev = false) evs2
       /\ world (snd (append_to_google_sheet sheets_only (map row_of L) st1))
          = world st1.
Proof.
  intros L st1. split; [reflexivity|]. split; [vm_compute; reflexivity|].
  apply (demo_second_run HttpFail [] (fun _ => HttpFail) HttpFail L (initial sheet_AB)).
  reflexivity.
Defined.

Example sync_AB_AC :
  appended_rows
    (trace (snd (append_to_google_sheet sheets_only (map row_of pairs_AC)
                   (initial sheet_AB))))
  = [(JStr "C", JStr "y")]
  /\ world (snd (append_to_google_sheet sheets_only (map row_of pairs_AC)
                   (initial sheet_AB)))
     = [["A"; "https://drive/a"]; ["B"; "https://drive/b"]; ["C"; "y"]].
Proof. split; vm_compute; reflexivity. Qed.


(** ** The Google token *)

Section Credentials.
Context {W : Type} (S : Services W).

Lemma service_unusable (st : state W) :
  token_unusable (token_file S (world st)) = true ->
  get_google_sheets_service S st
  = (Raise (credential_error (token_file S (world st))),
     State (world st) (zoho_auth_token st) (zoho_headers_Authorization st)
           (trace st ++ map Print (credential_report (token_file S (world st))))).
Proof.
  intros Hbad. unfold get_google_sheets_service. unfold_M.
  destruct (token_file S (world st)) as [|e|[]]; simpl in *;
    try discriminate; by rewrite <- ?app_assoc.
Qed.

Lemma append_unusable (results : list (json * json)) (st : state W) :
  token_unusable (token_file S (world st)) = true ->
  append_to_google_sheet S results st
  = (Return tt,
     State (world st) (zoho_auth_token st) (zoho_headers_Authorization st)
           (trace st
            ++ map Print
                 (credential_report (token_file S (world st))
                  ++ [sheet_report (credential_error (token_file S (world st)))]))).
Proof.
  intros Hbad. unfold append_to_google_sheet.
  unfold try_except at 1, mbind at 1, M_bind at 1.
  rewrite (service_unusable st Hbad).
  destruct (token_file S (world st)) as [|e|[]]; simpl in *; try discriminate;
    unfold_M; simpl; rewrite <- ?app_assoc; try done.
  destruct e; simpl; by rewrite <- ?app_assoc.
Qed.

End Credentials.

(** C7, as the code has it: with a token file that is absent, refused or not
    valid, [get_google_sheets_service] prints its report and raises; inside
    [append_to_google_sheet] the exception is caught and printed, no call of
    the Sheets client is made, the world and the globals are as before, and
    the function returns normally. *)
Theorem credential_failure_is_logged {W} (S : Services W)
    (results : list (json * json)) (st : state W) :
  token_unusable (token_file S (world st)) = true ->
  let t := token_file S (world st) in
  fst (get_google_sheets_service S st) = Raise (credential_error t)
  /\ append_to_google_sheet S results st
     = (Return tt,
        State (world st) (zoho_auth_token st) (zoho_headers_Authorization st)
              (trace st
               ++ map Print (credential_report t
                             ++ [sheet_report (credential_error t)]))).
Proof.
  intros Hbad t. split.
  - by rewrite (service_unusable S st Hbad).
  - by apply append_unusable.
Qed.

Lemma credential_failure_is_logged_witness :
  token_unusable (token_file no_google_token (world (initial []))) = true
  /\ fst (get_google_sheets_service no_google_token (initial [])) = Raise ValueError
  /\ append_to_google_sheet no_google_token [(JStr "f1", JStr "https://drive/f1")]
       (initial [])
     = (Return tt,
        State [] None None
              [Print MsgInvalidGoogleToken; Print (MsgSheetsInitFailed ValueError);
               Print (MsgUnexpectedError ValueError)]).
Proof.
  split; [reflexivity|].
  apply (credential_failure_is_logged no_google_token
           [(JStr "f1", JStr "https://drive/f1")] (initial [])).
  reflexivity.
Defined.

(** C7, as the specification words it, fails: without a Google token the run refreshes
    the Zoho token, lists the folder, sets the permission of the file and
    then returns normally, exactly as the run with a valid token does. *)
Lemma credential_failure_not_fatal :
  main no_google_token cfg_full 3 (initial [])
  = (Return tt,
     State [] (Some (ZohoOauthToken (JStr "t"))) (Some (ZohoOauthToken (JStr "t")))
       [Print MsgRefreshing; PostToken;
        Print (MsgNewAccessToken (ZohoOauthToken (JStr "t")));
        Print MsgFetching;
        GetFiles (Some (ZohoOauthToken (JStr "t"))) 50 0;
        Print (MsgFound 1);
        Print (MsgProcessing (JStr "f1"));
        PostPermissions (Some (ZohoOauthToken (JStr "t"))) (JStr "f1");
        Print (MsgPermissionsSet (JStr "f1") (permission_body "https://drive/f1"));
        Print (MsgDirectPermalink (JStr "f1") (JStr "https://drive/f1"));
        Sleep 1;
        Print MsgInvalidGoogleToken;
        Print (MsgSheetsInitFailed ValueError);
        Print (MsgUnexpectedError ValueError)])
  /\ fst (main all_working cfg_full 3 (initial [])) = Return tt
  /\ ~ credential_failure_fatal no_google_token cfg_full 3 (initial []).
Proof.
  assert (main no_google_token cfg_full 3 (initial [])
          = (Return tt,
             State [] (Some (ZohoOauthToken (JStr "t")))
               (Some (ZohoOauthToken (JStr "t")))
               [Print MsgRefreshing; PostToken;
                Print (MsgNewAccessToken (ZohoOauthToken (JStr "t")));
                Print MsgFetching;
                GetFiles (Some (ZohoOauthToken (JStr "t"))) 50 0;
                Print (MsgFound 1);
                Print (MsgProcessing (JStr "f1"));
                PostPermissions (Some (ZohoOauthToken (JStr "t"))) (JStr "f1");
                Print (MsgPermissionsSet (JStr "f1")
                         (permission_body "https://drive/f1"));
                Print (MsgDirectPermalink (JStr "f1") (JStr "https://drive/f1"));
                Sleep 1;
                Print MsgInvalidGoogleToken;
                Print (MsgSheetsInitFailed ValueError);
                Print (MsgUnexpectedError ValueError)])) as Hrun
    by (vm_compute; reflexivity).
  split; [exact Hrun|]. split; [vm_compute; reflexivity|].
  intros Hfatal. destruct (Hfatal eq_refl) as [[e He]|(evs & Hadds & Hquiet)].
  - rewrite Hrun in He. discriminate.
  - unfold adds in Hadds. rewrite Hrun in Hadds. simpl in Hadds. subst evs.
    do 4 apply Forall_cons in Hquiet as [_ Hquiet].
    apply Forall_cons in Hquiet as [Hlist _]. discriminate.
Qed.

(** ** The permission setter and the loop of [main] *)

Section Permissions.
Context {W : Type} (S : Services W).

Lemma set_permissions_failed (fid : json) (st : state W) (w' : W) :
  permissions_endpoint S (zoho_headers_Authorization st) fid (world st)
  = (HttpFail, w') ->
  set_permissions_and_get_permalink S fid st
  = (Return {| file_id := fid; permalink := JNull; success := false |},
     State w' (zoho_auth_token st) (zoho_headers_Authorization st)
           (trace st ++ [PostPermissions (zoho_headers_Authorization st) fid;
                         Print (MsgProcessError fid)])).
Proof.
  intros Hcall. unfold set_permissions_and_get_permalink. unfold_M. simpl.
  rewrite Hcall. simpl. by rewrite <- app_assoc.
Qed.

Lemma process_files_failed (fid : json) (rest : list json)
    (results : list (json * json)) (st : state W) (w' : W) :
  permissions_endpoint S (zoho_headers_Authorization st) fid (world st)
  = (HttpFail, w') ->
  process_files S (fid :: rest) results st
  = process_files S rest results
      (State w' (zoho_auth_token st) (zoho_headers_Authorization st)
             (trace st ++ [Print (MsgProcessing fid);
                           PostPermissions (zoho_headers_Authorization st) fid;
                           Print (MsgProcessError fid);
                           Sleep 1])).
Proof.
  intros Hcall. simpl.
  unfold mbind at 1, M_bind at 1, print at 1, emit at 1.
  unfold mbind at 1, M_bind at 1.
  rewrite (set_permissions_failed fid _ w') by done. simpl.
  unfold mbind at 1, M_bind at 1, sleep at 1, emit at 1. simpl.
  by rewrite <- !app_assoc.
Qed.

End Permissions.

(** C3: when the permission request of a file raises a [RequestException],
    [set_permissions_and_get_permalink] returns the file id with no
    permalink and [success] false, and the loop of [main] goes on: after
    the error report and the one-second sleep it processes the remaining
    file ids, with the results collected so far unchanged. *)
Theorem permission_failure_skips_file {W} (S : Services W) (fid : json)
    (rest : list json) (results : list (json * json)) (st : state W) (w' : W) :
  permissions_endpoint S (zoho_headers_Authorization st) fid (world st)
  = (HttpFail, w') ->
  fst (set_permissions_and_get_permalink S fid st)
  = Return {| file_id := fid; permalink := JNull; success := false |}
  /\ process_files S (fid :: rest) results st
     = process_files S rest results
         (State w' (zoho_auth_token st) (zoho_headers_Authorization st)
                (trace st ++ [Print (MsgProcessing fid);
                              PostPermissions (zoho_headers_Authorization st) fid;
                              Print (MsgProcessError fid);
                              Sleep 1])).
Proof.
  intros Hcall. split.
  - by rewrite (set_permissions_failed S fid st w' Hcall).
  - by apply process_files_failed.
Qed.

Lemma permission_failure_skips_file_witness :
  let st := initial [] in
  permissions_endpoint second_fails (zoho_headers_Authorization st) (JStr "f2")
    (world st) = (HttpFail, [])
  /\ fst (set_permissions_and_get_permalink second_fails (JStr "f2") st)
     = Return {| file_id := JStr "f2"; permalink := JNull; success := false |}
  /\ process_files second_fails [JStr "f2"; JStr "f3"] [] st
     = process_files second_fails [JStr "f3"] []
         (State [] None None
                [Print (MsgProcessing (JStr "f2"));
                 PostPermissions None (JStr "f2");
                 Print (MsgProcessError (JStr "f2"));
                 Sleep 1]).
Proof.
  intros st. split; [reflexivity|].
  apply (permission_failure_skips_file second_fails (JStr "f2") [JStr "f3"] []
           st []).
  reflexivity.
Defined.

(** The whole run when everything works: one file, one row in the sheet. *)
Example run_all_working :
  main all_working cfg_full 3 (initial [])
  = (Return tt,
     State [["f1"; "https://drive/f1"]]
       (Some (ZohoOauthToken (JStr "t"))) (Some (ZohoOauthToken (JStr "t")))
       [Print MsgRefreshing; PostToken;
        Print (MsgNewAccessToken (ZohoOauthToken (JStr "t")));
        Print MsgFetching;
        GetFiles (Some (ZohoOauthToken (JStr "t"))) 50 0;
        Print (MsgFound 1);
        Print (MsgProcessing (JStr "f1"));
        PostPermissions (Some (ZohoOauthToken (JStr "t"))) (JStr "f1");
        Print (MsgPermissionsSet (JStr "f1") (permission_body "https://drive/f1"));
        Print (MsgDirectPermalink (JStr "f1") (JStr "https://drive/f1"));
        Sleep 1;
        BuildService; SheetGet;
        Print (MsgExistingIds ∅);
        Print (MsgWillAppend (JStr "f1") (JStr "https://drive/f1"));
        SheetAppend [(JStr "f1", JStr "https://drive/f1")];
        Print (MsgAppended (JNum 1))]).
Proof. vm_compute. reflexivity. Qed.

(** The whole run over three files of which the second fails: the three
    permission requests are made, and the two links reach the sheet. *)
Example run_second_fails :
  let run := main second_fails cfg_full 3 (initial []) in
  fst run = Return tt
  /\ permission_requests (trace (snd run)) = [JStr "f1"; JStr "f2"; JStr "f3"]
  /\ world (snd run) = [["f1"; "https://drive/f1"]; ["f3"; "https://drive/f3"]].
Proof. vm_compute. done. Qed.

(** ** The link extractor: parsing of the answer *)

Lemma prefix_spec (p s : string) :
  String.prefix p s = true <-> exists rest, s = p +:+ rest.
Proof.
  revert p. induction s as [|b s IH]; intros p; simpl.
  - destruct p as [|a p]; [split; [by exists ""|done]|].
    split; [done|]. by intros [rest Hrest].
  - destruct p as [|a p]; [split; [by eexists|done]|].
    destruct (Ascii.ascii_dec a b) as [->|Hne].
    + rewrite IH. split.
      * intros [rest ->]. by exists rest.
      * intros [rest [= ->]]. by exists rest.
    + split; [done|]. intros [rest [= ? _]]. done.
Qed.

Lemma matches_url_scheme_spec (s : string) :
  matches_url_scheme s = true
  <-> exists rest, s = "http://" +:+ rest \/ s = "https://" +:+ rest.
Proof.
  unfold matches_url_scheme. rewrite orb_true_iff, !prefix_spec. split.
  - intros [[rest ->]|[rest ->]]; exists rest; [by left|by right].
  - intros [rest [-> | ->]]; [left|right]; by exists rest.
Qed.

(** The three answers of the specification's examples. *)
Example extract_examples :
  fst (extract_permalink_with_gemini (gemini_says "None") JNull (initial []))
  = Return JNull
  /\ fst (extract_permalink_with_gemini (gemini_says "not-a-url") JNull (initial []))
     = Return JNull
  /\ fst (extract_permalink_with_gemini (gemini_says "https://example.com/f") JNull
            (initial []))
     = Return (JStr "https://example.com/f").
Proof. repeat split; reflexivity. Qed.

Lemma extract_defaults_to_none_witness :
  let body := JObj [("candidates", JArr [JObj [("finishReason", JStr "SAFETY")]])] in
  gemini_endpoint (gemini_answers body) JNull (world (initial [])) = (HttpOk body, [])
  /\ lacks_text body = true
  /\ fst (extract_permalink_with_gemini (gemini_answers body) JNull (initial []))
     = Return JNull.
Proof.
  intros body. split; [reflexivity|]. split; [reflexivity|].
  by apply (extract_defaults_to_none (gemini_answers body) JNull body (initial []) []).
Defined.

(** The four shapes one by one, and two other shapes, which do
    raise: an empty [candidates] list and a [null] content. *)
Example extract_default_shapes :
  let extract body :=
    fst (extract_permalink_with_gemini (gemini_answers body) JNull (initial [])) in
  extract (JObj [("promptFeedback", JObj [])]) = Return JNull
  /\ extract (JObj [("candidates", JArr [JObj []])]) = Return JNull
  /\ extract (JObj [("candidates", JArr [JObj [("content", JObj [])]])]) = Return JNull
  /\ extract (JObj [("candidates",
                     JArr [JObj [("content", JObj [("parts", JArr [JObj []])])]])])
     = Return JNull
  /\ extract (JObj [("candidates", JArr [])]) = Raise IndexError
  /\ extract (JObj [("candidates", JArr [JObj [("content", JNull)]])])
     = Raise AttributeError.
Proof. repeat split; reflexivity. Qed.

(** ** The file lister *)

Lemma collect_ids_records (records : list (list (string * json))) (acc : list json) :
  collect_ids (map JObj records) acc = Return (acc ++ ids_of records)%list.
Proof.
  revert acc. induction records as [|r rest IH]; intros acc; simpl.
  - by rewrite app_nil_r.
  - rewrite IH. unfold ids_of. simpl. rewrite filter_cons. fold (record_id r).
    destruct (truthy (record_id r)) eqn:Hid.
    + rewrite decide_True by done. by rewrite <- app_assoc.
    + rewrite decide_False by (by intros ?). done.
Qed.

Section Lister.
Context (pages : nat -> nat -> list (list (string * json))).

(** One iteration against a paged service. *)
Lemma fetch_page_paged (file_ids : list json) (offset : nat) (st : state unit) :
  fetch_page (paged pages) file_ids offset st
  = let records := pages limit offset in
    let authorization := zoho_headers_Authorization st in
    if (length records <? limit)%nat then
      (Return (false, (file_ids ++ ids_of records)%list, offset),
       State (world st) (zoho_auth_token st) authorization
             (trace st ++ [GetFiles authorization limit offset]))
    else
      (Return (true, (file_ids ++ ids_of records)%list, (offset + limit)%nat),
       State (world st) (zoho_auth_token st) authorization
             (trace st ++ [GetFiles authorization limit offset; Sleep 1])).
Proof.
  unfold fetch_page. unfold_M. cbn -[limit Nat.ltb].
  destruct (pages limit offset) as [|r rest] eqn:Hpage.
  - cbn. rewrite app_nil_r. by destruct st as [[] ? ? ?].
  - cbn -[limit Nat.ltb collect_ids map].
    change (JObj r :: map JObj rest) with (map JObj (r :: rest)).
    rewrite collect_ids_records. cbn -[limit Nat.ltb ids_of].
    rewrite length_map.
    destruct (Datatypes.S (length rest) <? limit)%nat; cbn -[limit ids_of].
    + by destruct st as [[] ? ? ?].
    + rewrite <- app_assoc. by destruct st as [[] ? ? ?].
Qed.

(** The loop goes through [n] full pages and stops at the first page
    that is shorter than [limit] (an empty one included). *)
Lemma fetch_loop_stops (n fuel : nat) (file_ids : list json) (offset : nat)
    (st : state unit) :
  (forall i, (i < n)%nat ->
     (limit <= length (pages limit (offset + limit * i)))%nat) ->
  (length (pages limit (offset + limit * n)) < limit)%nat ->
  (n < fuel)%nat ->
  fetch_loop (paged pages) fuel file_ids offset st
  = (Return (file_ids ++ pages_ids pages (Datatypes.S n) offset)%list,
     State (world st) (zoho_auth_token st) (zoho_headers_Authorization st)
           (trace st
            ++ full_pages (zoho_headers_Authorization st) n offset
            ++ [GetFiles (zoho_headers_Authorization st) limit
                         (offset + limit * n)])).
Proof.
  revert fuel file_ids offset st.
  induction n as [|n IH]; intros fuel file_ids offset st Hfull Hshort Hfuel.
  - destruct fuel as [|fuel]; [lia|].
    cbn -[limit Nat.ltb fetch_page]. unfold mbind, M_bind.
    rewrite fetch_page_paged. cbn -[limit Nat.ltb ids_of].
    rewrite Nat.mul_0_r, Nat.add_0_r in *.
    apply Nat.ltb_lt in Hshort. rewrite Hshort.
    cbn -[limit ids_of]. by rewrite app_nil_r.
  - destruct fuel as [|fuel]; [lia|].
    cbn -[limit Nat.ltb fetch_page fetch_loop pages_ids].
    change (fetch_loop (paged pages) (Datatypes.S fuel) file_ids offset st)
      with ((fetch_page (paged pages) file_ids offset
               ≫= (fun '(continue, file_ids', offset') =>
                     if continue : bool
                     then fetch_loop (paged pages) fuel file_ids' offset'
                     else mret file_ids')) st).
    unfold mbind at 1, M_bind at 1. rewrite fetch_page_paged.
    cbn -[limit Nat.ltb ids_of fetch_loop pages_ids full_pages].
    assert ((length (pages limit offset) <? limit)%nat = false) as ->.
    { apply Nat.ltb_ge. specialize (Hfull 0%nat).
      rewrite Nat.mul_0_r, Nat.add_0_r in Hfull. apply Hfull. lia. }
    rewrite IH.
    + cbn -[limit ids_of]. rewrite <- !app_assoc.
      replace (offset + limit + limit * n)%nat
        with (offset + limit * Datatypes.S n)%nat by lia.
      reflexivity.
    + intros i Hi.
      replace (offset + limit + limit * i)%nat
        with (offset + limit * Datatypes.S i)%nat by lia.
      apply Hfull. lia.
    + replace (offset + limit + limit * n)%nat
        with (offset + limit * Datatypes.S n)%nat by lia.
      done.
    + lia.
Qed.

(** As long as the pages are full the loop is still running. *)
Lemma fetch_loop_runs (fuel : nat) (file_ids : list json) (offset : nat)
    (st : state unit) :
  (forall i, (i < fuel)%nat ->
     (limit <= length (pages limit (offset + limit * i)))%nat) ->
  fetch_loop (paged pages) fuel file_ids offset st
  = (OutOfFuel,
     State (world st) (zoho_auth_token st) (zoho_headers_Authorization st)
           (trace st ++ full_pages (zoho_headers_Authorization st) fuel offset)).
Proof.
  revert file_ids offset st.
  induction fuel as [|fuel IH]; intros file_ids offset st Hfull.
  - cbn. rewrite app_nil_r. by destruct st.
  - change (fetch_loop (paged pages) (Datatypes.S fuel) file_ids offset st)
      with ((fetch_page (paged pages) file_ids offset
               ≫= (fun '(continue, file_ids', offset') =>
                     if continue : bool
                     then fetch_loop (paged pages) fuel file_ids' offset'
                     else mret file_ids')) st).
    unfold mbind at 1, M_bind at 1. rewrite fetch_page_paged.
    cbn -[limit Nat.ltb ids_of fetch_loop full_pages].
    assert ((length (pages limit offset) <? limit)%nat = false) as ->.
    { apply Nat.ltb_ge. specialize (Hfull 0%nat).
      rewrite Nat.mul_0_r, Nat.add_0_r in Hfull. apply Hfull. lia. }
    rewrite IH.
    + cbn -[limit]. by rewrite <- !app_assoc.
    + intros i Hi.
      replace (offset + limit + limit * i)%nat
        with (offset + limit * Datatypes.S i)%nat by lia.
      apply Hfull. lia.
Qed.

Lemma list_requests_full_pages (authorization : option auth) (n offset : nat)
    (evs : list event) :
  list_requests (full_pages authorization n offset ++ evs)
  = (map (fun i => (limit, offset + limit * i)%nat) (seq 0 n)
     ++ list_requests evs)%list.
Proof.
  revert offset. induction n as [|n IH]; intros offset; [done|].
  cbn -[limit]. rewrite IH. rewrite Nat.mul_0_r, Nat.add_0_r.
  f_equal. f_equal. rewrite <- seq_shift, map_map.
  apply map_ext. intros i. f_equal. lia.
Qed.

End Lister.

Lemma ids_of_app (r1 r2 : list (list (string * json))) :
  ids_of (r1 ++ r2) = (ids_of r1 ++ ids_of r2)%list.
Proof. unfold ids_of. by rewrite map_app, filter_app. Qed.

Lemma ids_of_all (records : list (list (string * json))) :
  (forall r, r ∈ records -> truthy (record_id r) = true) ->
  ids_of records = map record_id records.
Proof.
  induction records as [|r rest IH]; intros Hall; [done|].
  unfold ids_of in *. simpl. rewrite filter_cons_True.
  - f_equal. apply IH. intros r' Hr'. apply Hall. by right.
  - apply Hall. by left.
Qed.

(** The lister on a paged service, from the first request on. *)
Lemma fetch_until_short_page (pages : nat -> nat -> list (list (string * json)))
    (n fuel : nat) (st : state unit) :
  (forall i, (i < n)%nat -> (limit <= length (pages limit (limit * i)))%nat) ->
  (length (pages limit (limit * n)) < limit)%nat ->
  (n < fuel)%nat ->
  fst (fetch_file_ids (paged pages) fuel st) = Return (pages_ids pages (Datatypes.S n) 0)
  /\ (exists evs,
        adds (fetch_file_ids (paged pages) fuel) st evs
        /\ list_requests evs
           = map (fun i => (limit, limit * i)%nat) (seq 0 (Datatypes.S n)))
  /\ fst (fetch_file_ids (paged pages) n st) = OutOfFuel.
Proof.
  intros Hfull Hshort Hfuel. unfold fetch_file_ids, adds.
  rewrite (fetch_loop_stops pages n fuel [] 0 st) by done.
  rewrite (fetch_loop_runs pages n [] 0 st) by (intros i Hi; by apply Hfull).
  split; [done|]. split; [|done].
  eexists. split; [reflexivity|].
  rewrite list_requests_full_pages, seq_S, map_app. reflexivity.
Qed.

(** The lister on a folder of 120 files. *)
Lemma fetch_folder_120 (records : list (list (string * json))) (fuel : nat)
    (st : state unit) :
  length records = 120%nat ->
  (3 <= fuel)%nat ->
  fst (fetch_file_ids (folder records) fuel st) = Return (ids_of records)
  /\ exists evs,
       adds (fetch_file_ids (folder records) fuel) st evs
       /\ list_requests evs = [(50, 0); (50, 50); (50, 100)]%nat
       /\ map (fun r => length (take (fst r) (drop (snd r) records))) (list_requests evs)
          = [50; 50; 20]%nat.
Proof.
  intros Hlen Hfuel.
  destruct (fetch_until_short_page
              (fun lim offset => take lim (drop offset records)) 2 fuel st)
    as (Hresult & (evs & Hadds & Hrequests) & _).
  - intros i Hi. rewrite length_take, length_drop. unfold limit. lia.
  - rewrite length_take, length_drop. unfold limit. lia.
  - lia.
  - unfold folder. split.
    + rewrite Hresult. f_equal.
      assert (records
              = (take 50 (drop 0 records) ++ take 50 (drop 50 records)
                 ++ take 50 (drop 100 records))%list) as Hjoin.
      { rewrite drop_0.
        rewrite <- (take_drop 50 records) at 1. f_equal.
        rewrite <- (take_drop 50 (drop 50 records)) at 1. f_equal.
        rewrite drop_drop. simpl. symmetry. apply take_ge.
        rewrite length_drop. lia. }
      rewrite (f_equal ids_of Hjoin), !ids_of_app.
      cbn -[take drop ids_of]. by rewrite app_nil_r.
    + exists evs. split; [done|]. rewrite Hrequests. split; [done|].
      cbn -[take drop]. rewrite !length_take, !length_drop, Hlen. done.
Qed.

(** C2: the lister asks for pages of 50 at the offsets 0, 50, 100, ...; it
    goes on after every page of at least 50 files and stops at the first
    page with fewer than 50 files (none included), returning the
    identifiers of all the pages in order; on a folder of 120 files it makes
    the three requests at 0, 50 and 100, which return 50, 50 and 20 files,
    and returns the 120 identifiers in the order of the folder. *)
Theorem fetch_pages_until_short_page :
  limit = 50%nat
  /\ (forall (pages : nat -> nat -> list (list (string * json))) (n fuel : nat)
        (st : state unit),
        (forall i, (i < n)%nat -> (50 <= length (pages 50 (50 * i)))%nat) ->
        (length (pages 50 (50 * n)) < 50)%nat ->
        (n < fuel)%nat ->
        fst (fetch_file_ids (paged pages) fuel st)
        = Return (pages_ids pages (Datatypes.S n) 0)
        /\ (exists evs,
              adds (fetch_file_ids (paged pages) fuel) st evs
              /\ list_requests evs
                 = map (fun i => (50, 50 * i)%nat) (seq 0 (Datatypes.S n)))
        /\ fst (fetch_file_ids (paged pages) n st) = OutOfFuel)
  /\ (forall (records : list (list (string * json))) (fuel : nat) (st : state unit),
        length records = 120%nat ->
        (forall r, r ∈ records -> truthy (record_id r) = true) ->
        (3 <= fuel)%nat ->
        fst (fetch_file_ids (folder records) fuel st)
        = Return (map record_id records)
        /\ length (map record_id records) = 120%nat
        /\ exists evs,
             adds (fetch_file_ids (folder records) fuel) st evs
             /\ list_requests evs = [(50, 0); (50, 50); (50, 100)]%nat
             /\ map (fun r => length (take (fst r) (drop (snd r) records)))
                    (list_requests evs)
                = [50; 50; 20]%nat).
Proof.
  split; [reflexivity|]. split.
  - intros pages n fuel st Hfull Hshort Hfuel.
    by apply fetch_until_short_page.
  - intros records fuel st Hlen Hids Hfuel.
    destruct (fetch_folder_120 records fuel st Hlen Hfuel) as [Hresult Hevs].
    rewrite <- (ids_of_all records Hids). split; [done|]. split; [|done].
    by rewrite (ids_of_all records Hids), length_map.
Qed.

Lemma fetch_pages_until_short_page_witness :
  let pages := fun lim offset => take lim (drop offset records_120) in
  ((forall i, (i < 2)%nat -> (50 <= length (pages 50 (50 * i)))%nat)
   /\ (length (pages 50 (50 * 2)) < 50)%nat
   /\ (2 < 3)%nat
   /\ fst (fetch_file_ids (paged pages) 3 (initial tt))
      = Return (pages_ids pages 3 0)
   /\ (exists evs,
         adds (fetch_file_ids (paged pages) 3) (initial tt) evs
         /\ list_requests evs = map (fun i => (50, 50 * i)%nat) (seq 0 3))
   /\ fst (fetch_file_ids (paged pages) 2 (initial tt)) = OutOfFuel)
  /\ length records_120 = 120%nat
  /\ (forall r, r ∈ records_120 -> truthy (record_id r) = true)
  /\ fst (fetch_file_ids (folder records_120) 3 (initial tt))
     = Return (map record_id records_120)
  /\ length (map record_id records_120) = 120%nat
  /\ exists evs,
       adds (fetch_file_ids (folder records_120) 3) (initial tt) evs
       /\ list_requests evs = [(50, 0); (50, 50); (50, 100)]%nat
       /\ map (fun r => length (take (fst r) (drop (snd r) records_120)))
              (list_requests evs)
          = [50; 50; 20]%nat.
Proof.
  intros pages.
  assert (forall i, (i < 2)%nat -> (50 <= length (pages 50 (50 * i)))%nat) as Hfull.
  { intros [|[|i]] Hi; [vm_compute; lia|vm_compute; lia|lia]. }
  assert (length (pages 50 (50 * 2)) < 50)%nat as Hshort by (vm_compute; lia).
  assert (forall r, r ∈ records_120 -> truthy (record_id r) = true) as Hids.
  { apply Forall_forall. unfold records_120. apply Forall_map.
    apply Forall_forall. intros i _. reflexivity. }
  split.
  - split; [exact Hfull|]. split; [exact Hshort|]. split; [lia|].
    apply (proj1 (proj2 fetch_pages_until_short_page) pages 2 3 (initial tt)
             Hfull Hshort).
    lia.
  - split; [reflexivity|]. split; [exact Hids|].
    apply (proj2 (proj2 fetch_pages_until_short_page) records_120 3 (initial tt)
             eq_refl Hids).
    lia.
Defined.

(** The run on the 120 files, computed. *)
Example fetch_120_computed :
  let run := fetch_file_ids (folder records_120) 3 (initial tt) in
  fst run = Return (map record_id records_120)
  /\ list_requests (trace (snd run)) = [(50, 0); (50, 50); (50, 100)]%nat
  /\ trace (snd run)
     = [GetFiles None 50 0; Sleep 1; GetFiles None 50 50; Sleep 1;
        GetFiles None 50 100].
Proof. vm_compute. done. Qed.

(** ** Further properties of the script *)

(** X1: a listing request that raises a [RequestException] ends the loop at
    once: the error is printed and the identifiers collected so far are
    returned. *)
Theorem fetch_error_returns_collected {W} (S : Services W) (fuel : nat)
    (file_ids : list json) (offset : nat) (st : state W) (w' : W) :
  files_endpoint S (zoho_headers_Authorization st) limit offset (world st)
  = (HttpFail, w') ->
  fetch_loop S (Datatypes.S fuel) file_ids offset st
  = (Return file_ids,
     State w' (zoho_auth_token st) (zoho_headers_Authorization st)
           (trace st ++ [GetFiles (zoho_headers_Authorization st) limit offset;
                         Print MsgFetchError])).
Proof.
  intros Hcall. cbn -[limit]. unfold fetch_page. unfold_M. cbn -[limit].
  rewrite Hcall. cbn -[limit]. by rewrite <- app_assoc.
Qed.

Lemma fetch_error_returns_collected_witness :
  files_endpoint second_page_fails None limit 50 tt = (HttpFail, tt)
  /\ fetch_loop second_page_fails 1 [JStr "f0"] 50 (initial tt)
     = (Return [JStr "f0"],
        State tt None None [GetFiles None limit 50; Print MsgFetchError]).
Proof.
  split; [reflexivity|].
  by apply (fetch_error_returns_collected second_page_fails 0 [JStr "f0"] 50
              (initial tt) tt).
Defined.

(** The whole listing when the second page fails: the 50 identifiers of the
    first page. *)
Example fetch_second_page_fails :
  let run := fetch_file_ids second_page_fails 5 (initial tt) in
  fst run = Return (map record_id (take 50 records_120))
  /\ trace (snd run)
     = [GetFiles None 50 0; Sleep 1; GetFiles None 50 50; Print MsgFetchError].
Proof. vm_compute. done. Qed.

(** X2: with an accepted configuration and an object that has an
    [access_token], the refresher stores the bearer value in both globals,
    reports it and returns [True]. *)
Theorem refresh_granted_sets_authorization {W} (S : Services W) (cfg : Config)
    (st : state W) (fields : list (string * json)) (access_token : json) (w' : W) :
  config_rejected cfg = false ->
  token_endpoint S (world st) = (HttpOk (JObj fields), w') ->
  dict_lookup "access_token" fields = Some access_token ->
  refresh_access_token S cfg st
  = (Return true,
     State w' (Some (ZohoOauthToken access_token)) (Some (ZohoOauthToken access_token))
           (trace st ++ [PostToken;
                         Print (MsgNewAccessToken (ZohoOauthToken access_token))])).
Proof.
  unfold config_rejected, refresh_access_token. intros Hacc Hcall Hfield.
  destruct (existsb is_None (refresh_params cfg)); [discriminate|].
  destruct (negb (env_truthy (gemini_api_key cfg))); [discriminate|].
  destruct (negb (env_truthy (SPREADSHEET_ID cfg))); [discriminate|].
  unfold_M. rewrite Hcall. simpl. rewrite Hfield. simpl.
  by rewrite <- app_assoc.
Qed.

Lemma refresh_granted_sets_authorization_witness :
  config_rejected cfg_full = false
  /\ token_endpoint all_working (world (initial [])) = (HttpOk (token_body "t"), [])
  /\ dict_lookup "access_token" [("access_token", JStr "t")] = Some (JStr "t")
  /\ refresh_access_token all_working cfg_full (initial [])
     = (Return true,
        State [] (Some (ZohoOauthToken (JStr "t"))) (Some (ZohoOauthToken (JStr "t")))
              [PostToken; Print (MsgNewAccessToken (ZohoOauthToken (JStr "t")))]).
Proof.
  split; [reflexivity|]. split; [reflexivity|]. split; [reflexivity|].
  by apply (refresh_granted_sets_authorization all_working cfg_full (initial [])
              [("access_token", JStr "t")] (JStr "t") []).
Defined.

Lemma config_rejected_spec (cfg : Config) :
  config_rejected cfg = true
  <-> ZOHO_REFRESH_TOKEN cfg = None \/ ZOHO_CLIENT_ID cfg = None
      \/ ZOHO_CLIENT_SECRET cfg = None
      \/ gemini_api_key cfg = None \/ gemini_api_key cfg = Some ""
      \/ SPREADSHEET_ID cfg = None \/ SPREADSHEET_ID cfg = Some "".
Proof.
  unfold config_rejected, refresh_params, env_truthy. simpl.
  destruct (ZOHO_REFRESH_TOKEN cfg), (ZOHO_CLIENT_ID cfg), (ZOHO_CLIENT_SECRET cfg);
    simpl; try (split; [tauto|done]).
  destruct (gemini_api_key cfg) as [g|], (SPREADSHEET_ID cfg) as [i|]; simpl;
    try destruct (String.eqb_spec g ""); try destruct (String.eqb_spec i "");
    subst; simpl; try (split; [tauto|done]).
  all: split; [done|]; intros Hcase;
    repeat (destruct Hcase as [Hcase|Hcase]; try discriminate; try congruence);
    congruence.
Qed.

(** X3: when one of the five values is unset, or the Gemini key or the
    spreadsheet id is the empty string, the refresher prints one message
    and returns [False]: no request is made and the world is untouched. *)
Theorem refresh_missing_value_no_request {W} (S : Services W) (cfg : Config)
    (st : state W) :
  (ZOHO_REFRESH_TOKEN cfg = None \/ ZOHO_CLIENT_ID cfg = None
   \/ ZOHO_CLIENT_SECRET cfg = None
   \/ gemini_api_key cfg = None \/ gemini_api_key cfg = Some ""
   \/ SPREADSHEET_ID cfg = None \/ SPREADSHEET_ID cfg = Some "") ->
  fst (refresh_access_token S cfg st) = Return false
  /\ world (snd (refresh_access_token S cfg st)) = world st
  /\ exists evs,
       adds (refresh_access_token S cfg) st evs
       /\ Forall (fun ev => network_call ev = false) evs.
Proof.
  intros Hmissing. apply config_rejected_spec in Hmissing.
  destruct (refresh_config_rejected S cfg st Hmissing) as [m Hrun].
  unfold adds. rewrite Hrun. simpl. split; [done|]. split; [done|].
  exists [Print m]. split; [done|]. by repeat constructor.
Qed.

Lemma refresh_missing_value_no_request_witness :
  let cfg := {| ZOHO_REFRESH_TOKEN := Some "r"; ZOHO_CLIENT_ID := Some "c";
                ZOHO_CLIENT_SECRET := None; gemini_api_key := Some "k";
                SPREADSHEET_ID := Some "s" |} in
  ZOHO_CLIENT_SECRET cfg = None
  /\ fst (refresh_access_token all_working cfg (initial [])) = Return false
  /\ world (snd (refresh_access_token all_working cfg (initial []))) = []
  /\ exists evs,
       adds (refresh_access_token all_working cfg) (initial []) evs
       /\ Forall (fun ev => network_call ev = false) evs.
Proof.
  intros cfg. split; [reflexivity|].
  apply (refresh_missing_value_no_request all_working cfg (initial [])).
  right. right. by left.
Defined.

Lemma lstrip_spec (s : string) :
  exists l,
    s = l +:+ lstrip s /\ all_space l = true /\ not_space (first_char (lstrip s)).
Proof.
  induction s as [|c s IH]; simpl.
  - by exists "".
  - destruct (is_space c) eqn:Hc.
    + destruct IH as (l & Hs & Hl & Hfirst).
      exists (String c l).
      split; [change (String c s = String c (l +:+ lstrip s)); by f_equal|].
      split; [simpl; by rewrite Hc, Hl|done].
    + exists "". simpl. by rewrite Hc.
Qed.

Lemma rstrip_spec (s : string) :
  exists r,
    s = rstrip s +:+ r /\ all_space r = true /\ not_space (last_char (rstrip s)).
Proof.
  induction s as [|c s IH]; simpl.
  - by exists "".
  - destruct IH as (r & Hs & Hr & Hlast).
    destruct (rstrip s) as [|d t] eqn:Hrs.
    + destruct (is_space c) eqn:Hc.
      * exists (String c r). simpl in *. by rewrite Hc, Hr, Hs.
      * exists r. simpl in *. by rewrite Hc, Hs.
    + exists r.
      split; [change (String c s = String c (String d t +:+ r)); by f_equal|done].
Qed.

Lemma rstrip_first (s : string) :
  not_space (first_char s) -> first_char (rstrip s) = first_char s.
Proof.
  destruct s as [|c s]; simpl; [done|]. intros Hc.
  destruct (rstrip s); [by rewrite Hc|done].
Qed.

(** X4: [strip] removes white space at both ends and nothing else: the
    string is its stripped text between two runs of white space, and the
    stripped text neither starts nor ends with a white-space character. *)
Theorem strip_trims (s : string) :
  exists l r,
    s = l +:+ strip s +:+ r
    /\ all_space l = true /\ all_space r = true
    /\ not_space (first_char (strip s)) /\ not_space (last_char (strip s)).
Proof.
  destruct (lstrip_spec s) as (l & Hs & Hl & Hfirst).
  destruct (rstrip_spec (lstrip s)) as (r & Hls & Hr & Hlast).
  exists l, r. unfold strip. rewrite <- Hls, <- Hs.
  split; [done|]. split; [done|]. split; [done|]. split; [|done].
  by rewrite rstrip_first.
Qed.

Section Setter.
Context {W : Type} (S : Services W).

(** X5: when the permission answer carries a truthy permalink at
    [data.attributes.permalink], it is returned with [success] true and the
    Gemini service is not called. *)
Theorem direct_permalink_skips_gemini (fid response_data link : json)
    (st : state W) (w' : W) :
  permissions_endpoint S (zoho_headers_Authorization st) fid (world st)
  = (HttpOk response_data, w') ->
  direct_permalink response_data = Return link ->
  truthy link = true ->
  set_permissions_and_get_permalink S fid st
  = (Return {| file_id := fid; permalink := link; success := true |},
     State w' (zoho_auth_token st) (zoho_headers_Authorization st)
           (trace st ++ [PostPermissions (zoho_headers_Authorization st) fid;
                         Print (MsgPermissionsSet fid response_data);
                         Print (MsgDirectPermalink fid link)])).
Proof.
  intros Hcall Hdirect Htruthy.
  unfold set_permissions_and_get_permalink, direct_permalink in *. unfold_M.
  simpl. rewrite Hcall. simpl.
  destruct (py_get response_data "data" (JObj [])) as [data|e|];
    try discriminate. simpl.
  destruct (py_get data "attributes" (JObj [])) as [attributes|e|];
    try discriminate. simpl.
  rewrite Hdirect. simpl. rewrite Htruthy. simpl. by rewrite <- !app_assoc.
Qed.

(** X6: when the permission answer has no usable permalink and the Gemini
    request raises a [RequestException], the extractor returns no link and
    the file is still reported with [success] true and no permalink. *)
Theorem gemini_failure_keeps_success (fid response_data link : json)
    (st : state W) (w1 w2 : W) :
  permissions_endpoint S (zoho_headers_Authorization st) fid (world st)
  = (HttpOk response_data, w1) ->
  direct_permalink response_data = Return link ->
  truthy link = false ->
  gemini_endpoint S response_data w1 = (HttpFail, w2) ->
  set_permissions_and_get_permalink S fid st
  = (Return {| file_id := fid; permalink := JNull; success := true |},
     State w2 (zoho_auth_token st) (zoho_headers_Authorization st)
           (trace st ++ [PostPermissions (zoho_headers_Authorization st) fid;
                         Print (MsgPermissionsSet fid response_data);
                         Print (MsgUsingGemini fid);
                         PostGemini response_data;
                         Print MsgGeminiError;
                         Print (MsgGeminiPermalink fid JNull)])).
Proof.
  intros Hcall Hdirect Hfalsy Hgemini.
  unfold set_permissions_and_get_permalink, extract_permalink_with_gemini,
    direct_permalink in *. unfold_M.
  simpl. rewrite Hcall. simpl.
  destruct (py_get response_data "data" (JObj [])) as [data|e|];
    try discriminate. simpl.
  destruct (py_get data "attributes" (JObj [])) as [attributes|e|];
    try discriminate. simpl.
  rewrite Hdirect. simpl. rewrite Hfalsy. simpl. rewrite Hgemini. simpl.
  by rewrite <- !app_assoc.
Qed.

End Setter.

Lemma direct_permalink_skips_gemini_witness :
  let st := initial [] in
  permissions_endpoint all_working (zoho_headers_Authorization st) (JStr "f1") (world st)
  = (HttpOk (permission_body "https://drive/f1"), [])
  /\ direct_permalink (permission_body "https://drive/f1")
     = Return (JStr "https://drive/f1")
  /\ truthy (JStr "https://drive/f1") = true
  /\ set_permissions_and_get_permalink all_working (JStr "f1") st
     = (Return {| file_id := JStr "f1"; permalink := JStr "https://drive/f1";
                  success := true |},
        State [] None None
              [PostPermissions None (JStr "f1");
               Print (MsgPermissionsSet (JStr "f1") (permission_body "https://drive/f1"));
               Print (MsgDirectPermalink (JStr "f1") (JStr "https://drive/f1"))]).
Proof.
  intros st. split; [reflexivity|]. split; [reflexivity|]. split; [reflexivity|].
  by apply (direct_permalink_skips_gemini all_working (JStr "f1")
              (permission_body "https://drive/f1") (JStr "https://drive/f1") st []).
Defined.

Lemma gemini_failure_keeps_success_witness :
  let S := demo HttpFail [] (fun _ => HttpOk (JObj [("data", JObj [])])) HttpFail
                TokenFileMissing in
  let st := initial [] in
  permissions_endpoint S (zoho_headers_Authorization st) (JStr "f1") (world st)
  = (HttpOk (JObj [("data", JObj [])]), [])
  /\ direct_permalink (JObj [("data", JObj [])]) = Return JNull
  /\ truthy JNull = false
  /\ gemini_endpoint S (JObj [("data", JObj [])]) [] = (HttpFail, [])
  /\ fst (set_permissions_and_get_permalink S (JStr "f1") st)
     = Return {| file_id := JStr "f1"; permalink := JNull; success := true |}.
Proof.
  intros S st. split; [reflexivity|]. split; [reflexivity|]. split; [reflexivity|].
  split; [reflexivity|].
  by rewrite (gemini_failure_keeps_success S (JStr "f1") (JObj [("data", JObj [])])
                JNull st [] [] eq_refl eq_refl eq_refl eq_refl).
Defined.

Section Collected.
Context {W : Type} (S : Services W).

Lemma returns_ret {A} (a : A) (P : A -> Prop) : P a -> returns (mret a : M W A) P.
Proof. intros HP st a' [= <-]. done. Qed.

Lemma returns_bind {A B} (m : M W A) (k : A -> M W B) (P : B -> Prop) :
  (forall x, returns (k x) P) -> returns (m ≫= k) P.
Proof.
  intros Hk st b. unfold mbind, M_bind.
  destruct (m st) as [[a|e|] st'] eqn:Hm; simpl; try discriminate.
  apply Hk.
Qed.

Lemma returns_try_except {A} (body : M W A) (handlers : exn -> option (M W A))
    (P : A -> Prop) :
  returns body P ->
  (forall e h, handlers e = Some h -> returns h P) ->
  returns (try_except body handlers) P.
Proof.
  intros Hbody Hh st a. unfold try_except. specialize (Hbody st).
  destruct (body st) as [[a'|e|] st'] eqn:Hrun; simpl in *; try discriminate.
  - intros [= <-]. by apply Hbody.
  - destruct (handlers e) as [h|] eqn:He; [by eapply Hh|discriminate].
Qed.

(** What the permission setter returns is about the file it was given. *)
Lemma set_permissions_file_id (fid : json) :
  returns (set_permissions_and_get_permalink S fid) (fun r => file_id r = fid).
Proof.
  unfold set_permissions_and_get_permalink. apply returns_try_except.
  - repeat (apply returns_bind; intros ?). by apply returns_ret.
  - intros e h. destruct e; simpl; try discriminate. intros [= <-].
    apply returns_bind. intros _. by apply returns_ret.
Qed.

(** X7: the rows that the loop of [main] collects are rows of the listed
    files, each with a truthy permalink: a file without a link, or whose
    request failed, adds nothing. *)
Theorem process_files_collects_links (file_ids : list json)
    (results results' : list (json * json)) (st : state W) :
  fst (process_files S file_ids results st) = Return results' ->
  exists added,
    results' = (results ++ added)%list
    /\ Forall (fun row => fst row ∈ file_ids /\ truthy (snd row) = true) added.
Proof.
  revert results st. induction file_ids as [|fid rest IH]; intros results st.
  - intros [= <-]. exists []. by rewrite app_nil_r.
  - simpl. unfold mbind at 1, M_bind at 1, print at 1, emit at 1.
    unfold mbind at 1, M_bind at 1.
    destruct (set_permissions_and_get_permalink S fid _) as [[r|e|] st1] eqn:Hset;
      try discriminate.
    pose proof (set_permissions_file_id fid _ r (f_equal fst Hset)) as Hfid.
    simpl in Hfid.
    unfold mbind at 1, M_bind at 1, sleep at 1, emit at 1. simpl.
    intros Hrest. apply IH in Hrest as (added & -> & Hadded).
    assert (Forall (fun row => fst row ∈ fid :: rest /\ truthy (snd row) = true)
                   added) as Hadded'.
    { eapply Forall_impl; [exact Hadded|]. intros row [Hin Hlink].
      split; [by right|done]. }
    destruct (success r && truthy (permalink r)) eqn:Hkeep.
    + exists ((file_id r, permalink r) :: added). split.
      * by rewrite <- app_assoc.
      * constructor; [|done]. simpl. rewrite Hfid. split; [by left|].
        by apply andb_prop in Hkeep as [_ Hlink].
    + by exists added.
Qed.

End Collected.

Lemma process_files_collects_links_witness :
  fst (process_files second_fails [JStr "f1"; JStr "f2"; JStr "f3"] [] (initial []))
  = Return [(JStr "f1", JStr "https://drive/f1"); (JStr "f3", JStr "https://drive/f3")]
  /\ exists added,
       [(JStr "f1", JStr "https://drive/f1"); (JStr "f3", JStr "https://drive/f3")]
       = ([] ++ added)%list
       /\ Forall (fun row => fst row ∈ [JStr "f1"; JStr "f2"; JStr "f3"]
                             /\ truthy (snd row) = true) added.
Proof.
  split; [reflexivity|].
  by apply (process_files_collects_links second_fails
              [JStr "f1"; JStr "f2"; JStr "f3"] [] _ (initial [])).
Defined.

(** ** The lister on folders of every size *)

Lemma take_add_split {A} (l : list A) (n m : nat) :
  take (n + m) l = (take n l ++ take m (drop n l))%list.
Proof.
  revert l. induction n as [|n IH]; intros l; [done|].
  destruct l as [|x l]; simpl; [by rewrite take_nil|]. by rewrite IH.
Qed.

Lemma pages_ids_windows (records : list (list (string * json))) (k offset : nat) :
  pages_ids (fun lim o => take lim (drop o records)) k offset
  = ids_of (take (limit * k) (drop offset records)).
Proof.
  revert offset. induction k as [|k IH]; intros offset.
  - by rewrite Nat.mul_0_r.
  - cbn -[limit take drop ids_of Nat.mul]. rewrite IH.
    replace (limit * Datatypes.S k)%nat with (limit + limit * k)%nat by lia.
    rewrite take_add_split, ids_of_app, drop_drop. done.
Qed.

(** X9: on a folder of any size the lister returns the identifiers of all
    its files in order, with one request per started window of 50: a
    folder of [n] files costs [n / 50 + 1] requests (the last one returns
    the remainder, which is empty when [n] is a multiple of 50). *)
Theorem fetch_folder_complete (records : list (list (string * json))) (fuel : nat)
    (st : state unit) :
  (length records / 50 < fuel)%nat ->
  fst (fetch_file_ids (folder records) fuel st) = Return (ids_of records)
  /\ exists evs,
       adds (fetch_file_ids (folder records) fuel) st evs
       /\ list_requests evs
          = map (fun i => (50, 50 * i)%nat) (seq 0 (Datatypes.S (length records / 50))).
Proof.
  intros Hfuel.
  pose proof (Nat.Div0.mul_div_le (length records) 50) as Hle.
  pose proof (Nat.mul_succ_div_gt (length records) 50 ltac:(lia)) as Hgt.
  destruct (fetch_until_short_page
              (fun lim offset => take lim (drop offset records))
              (length records / 50) fuel st)
    as (Hresult & Hevs & _).
  - intros i Hi. rewrite length_take, length_drop. unfold limit. nia.
  - rewrite length_take, length_drop. unfold limit. lia.
  - done.
  - unfold folder. split; [|done].
    rewrite Hresult, pages_ids_windows, drop_0, take_ge; [done|].
    unfold limit. lia.
Qed.

Lemma fetch_folder_complete_witness :
  let records := take 100 records_120 in
  (length records / 50 < 3)%nat
  /\ fst (fetch_file_ids (folder records) 3 (initial tt)) = Return (ids_of records)
  /\ exists evs,
       adds (fetch_file_ids (folder records) 3) (initial tt) evs
       /\ list_requests evs
          = map (fun i => (50, 50 * i)%nat) (seq 0 (Datatypes.S (length records / 50))).
Proof.
  intros records.
  assert (length records / 50 < 3)%nat as Hfuel by (vm_compute; lia).
  split; [exact Hfuel|].
  apply (fetch_folder_complete records 3 (initial tt) Hfuel).
Defined.

(** A folder of exactly 100 files: the third request returns nothing. *)
Example fetch_100_computed :
  trace (snd (fetch_file_ids (folder (take 100 records_120)) 3 (initial tt)))
  = [GetFiles None 50 0; Sleep 1; GetFiles None 50 50; Sleep 1;
     GetFiles None 50 100]
  /\ fst (fetch_file_ids (folder []) 3 (initial tt)) = Return [].
Proof. vm_compute. done. Qed.

(** ** Rules of the logic of runs *)

Section RunLogic.
Context {W : Type}.

Lemma returns_post {A B} (m : M W A) (k : A -> M W B) (Q : A -> Prop)
    (P : B -> Prop) :
  returns m Q -> (forall x, Q x -> returns (k x) P) -> returns (m ≫= k) P.
Proof.
  intros Hm Hk st b. unfold mbind, M_bind. specialize (Hm st).
  destruct (m st) as [[a|e|] st'] eqn:Hrun; simpl in *; try discriminate.
  apply Hk. by apply Hm.
Qed.

Lemma returns_lift {A} (o : outcome A) (P : A -> Prop) :
  (forall a, o = Return a -> P a) -> returns (lift o : M W A) P.
Proof. intros Ho st a Hrun. by apply Ho. Qed.

Lemma returns_weaken {A} (m : M W A) (P Q : A -> Prop) :
  (forall a, P a -> Q a) -> returns m P -> returns m Q.
Proof. intros HPQ Hm st a Hrun. apply HPQ. by eapply Hm. Qed.

Lemma emits_ret {A} (a : option auth) (x : A) (P : event -> Prop) :
  emits a (mret x : M W A) P.
Proof.
  intros st Ha. simpl. split; [done|]. split; [done|].
  exists []. by rewrite app_nil_r.
Qed.

Lemma emits_lift {A} (a : option auth) (o : outcome A) (P : event -> Prop) :
  emits a (lift o : M W A) P.
Proof.
  intros st Ha. simpl. split; [done|]. split; [done|].
  exists []. by rewrite app_nil_r.
Qed.

Lemma emits_raise {A} (a : option auth) (e : exn) (P : event -> Prop) :
  emits a (raise e : M W A) P.
Proof. apply emits_lift. Qed.

Lemma emits_emit (a : option auth) (ev : event) (P : event -> Prop) :
  P ev -> emits a (emit ev : M W unit) P.
Proof.
  intros Hev st Ha. simpl. split; [done|]. split; [done|].
  exists [ev]. split; [done|]. by constructor.
Qed.

Lemma emits_print (a : option auth) (m : message) (P : event -> Prop) :
  P (Print m) -> emits a (print m : M W unit) P.
Proof. apply emits_emit. Qed.

Lemma emits_sleep (a : option auth) (n : nat) (P : event -> Prop) :
  P (Sleep n) -> emits a (sleep n : M W unit) P.
Proof. apply emits_emit. Qed.

Lemma emits_request (a : option auth) (ev : event) (call : W -> http_result * W)
    (P : event -> Prop) :
  P ev -> emits a (request ev call) P.
Proof.
  intros Hev st Ha. unfold request.
  destruct (call (world st)) as [[|body] w']; simpl;
    (split; [done|]; split; [done|]; exists [ev]; split; [done|by constructor]).
Qed.

Lemma emits_api_call {A} (a : option auth) (ev : event)
    (call : W -> api_result A * W) (P : event -> Prop) :
  P ev -> emits a (api_call ev call) P.
Proof.
  intros Hev st Ha. unfold api_call.
  destruct (call (world st)) as [[x|e] w']; simpl;
    (split; [done|]; split; [done|]; exists [ev]; split; [done|by constructor]).
Qed.

Lemma emits_post {A B} (a : option auth) (m : M W A) (k : A -> M W B)
    (Q : A -> Prop) (P : event -> Prop) :
  returns m Q -> emits a m P -> (forall x, Q x -> emits a (k x) P) ->
  emits a (m ≫= k) P.
Proof.
  intros HQ Hm Hk st Ha. unfold mbind, M_bind.
  destruct (Hm st Ha) as (Htok & Hhdr & evs & Htrace & Hevs).
  specialize (HQ st).
  destruct (m st) as [[x|e|] st1] eqn:Hrun; simpl in *; try done;
    try (split; [done|]; split; [done|]; by exists evs).
  destruct (Hk x (HQ x eq_refl) st1 Hhdr) as (Htok' & Hhdr' & evs' & Htrace' & Hevs').
  split; [congruence|]. split; [done|].
  exists (evs ++ evs')%list. split.
  - by rewrite Htrace', Htrace, app_assoc.
  - by apply Forall_app.
Qed.

Lemma emits_bind {A B} (a : option auth) (m : M W A) (k : A -> M W B)
    (P : event -> Prop) :
  emits a m P -> (forall x, emits a (k x) P) -> emits a (m ≫= k) P.
Proof.
  intros Hm Hk. apply (emits_post a m k (fun _ => True)); [done|done|].
  intros x _. apply Hk.
Qed.

(** Reading the header yields [a]. *)
Lemma emits_get_Authorization {B} (a : option auth) (k : option auth -> M W B)
    (P : event -> Prop) :
  emits a (k a) P -> emits a (get_Authorization ≫= k) P.
Proof.
  intros Hk st Ha. unfold mbind, M_bind, get_Authorization. rewrite Ha.
  by apply Hk.
Qed.

Lemma emits_try_except {A} (a : option auth) (body : M W A)
    (handlers : exn -> option (M W A)) (P : event -> Prop) :
  emits a body P ->
  (forall e h, handlers e = Some h -> emits a h P) ->
  emits a (try_except body handlers) P.
Proof.
  intros Hbody Hh st Ha. unfold try_except.
  destruct (Hbody st Ha) as (Htok & Hhdr & evs & Htrace & Hevs).
  destruct (body st) as [[x|e|] st1] eqn:Hrun; simpl in *;
    try (split; [done|]; split; [done|]; by exists evs).
  destruct (handlers e) as [h|] eqn:He;
    [|split; [done|]; split; [done|]; by exists evs].
  destruct (Hh e h He st1 Hhdr) as (Htok' & Hhdr' & evs' & Htrace' & Hevs').
  split; [congruence|]. split; [done|].
  exists (evs ++ evs')%list. split.
  - by rewrite Htrace', Htrace, app_assoc.
  - by apply Forall_app.
Qed.

Lemma emits_weaken {A} (a : option auth) (m : M W A) (P Q : event -> Prop) :
  (forall ev, P ev -> Q ev) -> emits a m P -> emits a m Q.
Proof.
  intros HPQ Hm st Ha.
  destruct (Hm st Ha) as (Htok & Hhdr & evs & Htrace & Hevs).
  split; [done|]. split; [done|]. exists evs. split; [done|].
  by eapply Forall_impl.
Qed.

End RunLogic.

(** One step of a proof by the rules: the next statement of the script. *)
Ltac emits_step :=
  first
    [ apply emits_ret
    | apply emits_lift
    | apply emits_raise
    | apply emits_print; done
    | apply emits_sleep; done
    | apply emits_request; done
    | apply emits_api_call; done
    | apply emits_get_Authorization
    | apply emits_bind; [|intros ?]
    | match goal with
      | |- emits _ (if ?b then _ else _) _ => destruct b
      | |- emits _ (match ?x with _ => _ end) _ => destruct x
      end ].

(** ** What each function sends, and what it leaves alone *)

Section Frames.
Context {W : Type} (S : Services W).

Lemma fetch_page_unfold (file_ids : list json) (offset : nat) :
  fetch_page S file_ids offset
  = try_except
      (authorization ← get_Authorization;
       data ← request (GetFiles authorization limit offset)
                      (files_endpoint S authorization limit offset);
       after_listing file_ids offset data)
      (except_RequestException
         (print MsgFetchError;; mret (false, file_ids, offset))).
Proof. reflexivity. Qed.

Lemma set_permissions_unfold (fid : json) :
  set_permissions_and_get_permalink S fid
  = try_except
      (authorization ← get_Authorization;
       response_data ← request (PostPermissions authorization fid)
                               (permissions_endpoint S authorization fid);
       after_permissions S fid response_data)
      (except_RequestException
         (print (MsgProcessError fid);;
          mret {| file_id := fid; permalink := JNull; success := false |})).
Proof. reflexivity. Qed.

Lemma emits_after_listing (a : option auth) (file_ids : list json) (offset : nat)
    (data : json) :
  emits a (after_listing (W:=W) file_ids offset data) (lister_event a).
Proof. unfold after_listing. repeat emits_step. Qed.

Lemma emits_fetch_page (a : option auth) (file_ids : list json) (offset : nat) :
  emits a (fetch_page S file_ids offset) (lister_event a).
Proof.
  rewrite fetch_page_unfold. apply emits_try_except.
  - apply emits_get_Authorization. apply emits_bind; [by apply emits_request|].
    intros data. apply emits_after_listing.
  - intros e h. destruct e; simpl; try discriminate. intros [= <-].
    repeat emits_step.
Qed.

Lemma emits_fetch_loop (a : option auth) (fuel : nat) (file_ids : list json)
    (offset : nat) :
  emits a (fetch_loop S fuel file_ids offset) (lister_event a).
Proof.
  revert file_ids offset. induction fuel as [|fuel IH]; intros file_ids offset.
  - apply emits_lift.
  - simpl. apply emits_bind; [apply emits_fetch_page|].
    intros [[[] file_ids'] offset']; [apply IH|apply emits_ret].
Qed.

Lemma emits_extract (a : option auth) (response_data : json) :
  emits a (extract_permalink_with_gemini S response_data) (processing_event a).
Proof.
  unfold extract_permalink_with_gemini. apply emits_try_except.
  - repeat emits_step.
  - intros e h. destruct e; simpl; try discriminate. intros [= <-].
    repeat emits_step.
Qed.

Lemma emits_after_permissions (a : option auth) (fid response_data : json) :
  emits a (after_permissions S fid response_data)
        (fun ev => processing_event a ev /\ forall a' f, ev <> PostPermissions a' f).
Proof.
  assert (emits a (extract_permalink_with_gemini S response_data)
            (fun ev => processing_event a ev
                       /\ forall a' f, ev <> PostPermissions a' f)) as Hextract.
  { unfold extract_permalink_with_gemini. apply emits_try_except.
    - repeat emits_step.
    - intros e h. destruct e; simpl; try discriminate. intros [= <-].
      repeat emits_step. }
  unfold after_permissions.
  repeat first [exact Hextract | emits_step].
Qed.

Lemma emits_set_permissions (a : option auth) (fid : json) :
  emits a (set_permissions_and_get_permalink S fid) (processing_event a).
Proof.
  rewrite set_permissions_unfold. apply emits_try_except.
  - apply emits_get_Authorization. apply emits_bind; [by apply emits_request|].
    intros response_data.
    eapply emits_weaken; [|apply emits_after_permissions]. by intros ev [Hev _].
  - intros e h. destruct e; simpl; try discriminate. intros [= <-].
    repeat emits_step.
Qed.

Lemma emits_process_files (a : option auth) (file_ids : list json)
    (results : list (json * json)) :
  emits a (process_files S file_ids results) (processing_event a).
Proof.
  revert results. induction file_ids as [|fid rest IH]; intros results; simpl.
  - apply emits_ret.
  - apply emits_bind; [by apply emits_print|]. intros _.
    apply emits_bind; [apply emits_set_permissions|]. intros result.
    apply emits_bind; [by apply emits_sleep|]. intros _. apply IH.
Qed.

Lemma emits_service (a : option auth) :
  emits a (get_google_sheets_service S) sheet_event.
Proof.
  unfold get_google_sheets_service. apply emits_try_except.
  - apply emits_bind.
    + intros st Ha. destruct (token_file S (world st)); simpl;
        (split; [done|]; split; [done|]; exists []; by rewrite app_nil_r).
    + intros [[]|]; repeat emits_step.
  - intros e h [= <-]. repeat emits_step.
Qed.

Lemma emits_filter_new (a : option auth) (results : list (json * json))
    (E : gset string) (acc : list (json * json)) :
  emits a (filter_new (W:=W) results E acc) sheet_event.
Proof.
  revert acc. induction results as [|[fid link] rest IH]; intros acc; simpl.
  - apply emits_ret.
  - apply emits_bind; [apply emits_lift|]. intros [].
    + apply emits_bind; [by apply emits_print|]. intros _. apply IH.
    + apply emits_bind; [by apply emits_print|]. intros _. apply IH.
Qed.

Lemma emits_append (a : option auth) (results : list (json * json)) :
  emits a (append_to_google_sheet S results) sheet_event.
Proof.
  unfold append_to_google_sheet. apply emits_try_except.
  - apply emits_bind; [apply emits_service|]. intros _.
    apply emits_bind; [by apply emits_api_call|]. intros result.
    apply emits_bind; [by apply emits_print|]. intros _.
    apply emits_bind; [apply emits_filter_new|]. intros values.
    destruct values; repeat emits_step.
  - intros e h. destruct e; simpl; intros [= <-]; repeat emits_step.
Qed.

End Frames.

(** ** The bearer header across the run *)

Section Bearer.
Context {W : Type} (S : Services W) (cfg : Config).

Lemma main_unfold (fuel : nat) :
  main S cfg fuel
  = (print MsgRefreshing;;
     refreshed ← refresh_access_token S cfg;
     if negb refreshed then print MsgExiting else after_refresh S fuel).
Proof. reflexivity. Qed.

Lemma emits_after_refresh (a : option auth) (fuel : nat) :
  emits a (after_refresh S fuel) (storage_authorized a).
Proof.
  unfold after_refresh, fetch_file_ids.
  apply emits_bind; [by apply emits_print|]. intros _.
  apply emits_bind.
  { eapply emits_weaken; [|apply emits_fetch_loop].
    intros [] Hev; simpl in *; try done. by destruct Hev. }
  intros file_ids. apply emits_bind; [by apply emits_print|]. intros _.
  apply emits_bind.
  { eapply emits_weaken; [|apply emits_process_files]. by intros []. }
  intros [|row rows]; [by apply emits_print|].
  eapply emits_weaken; [|apply emits_append]. by intros [].
Qed.

(** A refresh that returns [True] leaves a bearer value in both globals. *)
Lemma refresh_true_bearer (st st1 : state W) :
  refresh_access_token S cfg st = (Return true, st1) ->
  exists t,
    zoho_auth_token st1 = Some (ZohoOauthToken t)
    /\ zoho_headers_Authorization st1 = Some (ZohoOauthToken t).
Proof.
  unfold refresh_access_token.
  destruct (existsb is_None (refresh_params cfg)); [discriminate|].
  destruct (negb (env_truthy (gemini_api_key cfg))); [discriminate|].
  destruct (negb (env_truthy (SPREADSHEET_ID cfg))); [discriminate|].
  unfold_M.
  destruct (token_endpoint S (world st)) as [[|body] w']; [discriminate|].
  destruct body as [| | |s|items|fields]; simpl; try discriminate.
  - destruct (is_substring "access_token" s); simpl; discriminate.
  - destruct (existsb (is_str "access_token") items); simpl; discriminate.
  - destruct (dict_lookup "access_token" fields) as [t|]; simpl; [|discriminate].
    intros [= <-]. by exists t.
Qed.

Lemma main_refresh_true (fuel : nat) (st st1 : state W) :
  refresh_access_token S cfg
    (State (world st) (zoho_auth_token st) (zoho_headers_Authorization st)
           (trace st ++ [Print MsgRefreshing]))
  = (Return true, st1) ->
  main S cfg fuel st = after_refresh S fuel st1.
Proof.
  intros Hrefresh. rewrite main_unfold.
  unfold mbind at 1, M_bind at 1, print at 1, emit at 1.
  unfold mbind at 1, M_bind at 1. cbn [fst snd world zoho_auth_token
    zoho_headers_Authorization trace]. by rewrite Hrefresh.
Qed.

(** X10: every listing and permission request of a run carries a bearer
    value, and it is the one that the [Authorization] header holds when the
    run ends: no request to the WorkDrive API is sent without the refreshed
    token, whatever the services answer and however the run ends. *)
Theorem main_requests_carry_token (fuel : nat) (st : state W) :
  exists evs,
    adds (main S cfg fuel) st evs
    /\ Forall (carries_token (zoho_headers_Authorization (snd (main S cfg fuel st))))
              evs.
Proof.
  unfold adds.
  set (st0 := State (world st) (zoho_auth_token st) (zoho_headers_Authorization st)
                    (trace st ++ [Print MsgRefreshing])).
  destruct (refresh_quiet S cfg st0) as [Hfuel (evs1 & Hadds1 & Hquiet)].
  unfold adds in Hadds1.
  assert (forall final, Forall (carries_token final) evs1) as Hevs1.
  { intros final. eapply Forall_impl; [exact Hquiet|]. by intros []. }
  destruct (refresh_access_token S cfg st0) as [[[]|e|] st1] eqn:Hrefresh;
    simpl in *; [| | |done].
  - destruct (refresh_true_bearer st0 st1 Hrefresh) as (t & Htok & Hhdr).
    destruct (emits_after_refresh (zoho_headers_Authorization st1) fuel st1 eq_refl)
      as (_ & Hfinal & evs2 & Htrace2 & Hevs2).
    rewrite (main_refresh_true fuel st st1 Hrefresh).
    exists (Print MsgRefreshing :: evs1 ++ evs2)%list. split.
    + rewrite Htrace2, Hadds1. by rewrite <- !app_assoc.
    + constructor; [done|]. apply Forall_app. split; [done|].
      eapply Forall_impl; [exact Hevs2|]. rewrite Hfinal, Hhdr.
      intros [] Hev; simpl in *; try done; (split; [by exists t|done]).
  - rewrite (main_refresh_false S cfg fuel st st1 Hrefresh). simpl.
    exists (Print MsgRefreshing :: evs1 ++ [Print MsgExiting])%list. split.
    + rewrite Hadds1. by rewrite <- !app_assoc.
    + constructor; [done|]. apply Forall_app. split; [done|]. by constructor.
  - rewrite (main_refresh_raise S cfg fuel st st1 e Hrefresh). simpl.
    exists (Print MsgRefreshing :: evs1). split.
    + rewrite Hadds1. by rewrite <- !app_assoc.
    + by constructor.
Qed.

End Bearer.

(** ** One request per window, one request per file *)

Lemma list_requests_app (evs1 evs2 : list event) :
  list_requests (evs1 ++ evs2) = (list_requests evs1 ++ list_requests evs2)%list.
Proof. unfold list_requests. apply flat_map_app. Qed.

Lemma permission_requests_app (evs1 evs2 : list event) :
  permission_requests (evs1 ++ evs2)
  = (permission_requests evs1 ++ permission_requests evs2)%list.
Proof. unfold permission_requests. apply flat_map_app. Qed.

Lemma sleep_events_app (evs1 evs2 : list event) :
  sleep_events (evs1 ++ evs2) = (sleep_events evs1 ++ sleep_events evs2)%list.
Proof. unfold sleep_events. apply flat_map_app. Qed.

Lemma list_requests_none (P : event -> Prop) (evs : list event) :
  (forall ev, P ev -> forall a lim offset, ev <> GetFiles a lim offset) ->
  Forall P evs -> list_requests evs = [].
Proof.
  intros HP. induction 1 as [|ev evs Hev _ IH]; [done|].
  simpl. rewrite IH. destruct ev; try done. by destruct (HP _ Hev authorization limit0 offset).
Qed.

Lemma gemini_or_print_quiet (evs : list event) :
  Forall gemini_or_print evs ->
  permission_requests evs = [] /\ sleep_events evs = [].
Proof.
  induction 1 as [|ev evs Hev _ [IH1 IH2]]; [done|].
  simpl. rewrite IH1, IH2. by destruct ev.
Qed.

Section Steps.
Context {W : Type} (S : Services W).

Lemma emits_after_listing_sleep (a : option auth) (file_ids : list json)
    (offset : nat) (data : json) :
  emits a (after_listing (W:=W) file_ids offset data) (fun ev => ev = Sleep 1).
Proof. unfold after_listing. repeat emits_step. Qed.

Lemma returns_after_listing (file_ids : list json) (offset : nat) (data : json) :
  returns (after_listing (W:=W) file_ids offset data)
          (fun r => fst (fst r) = true -> snd r = (offset + limit)%nat).
Proof.
  unfold after_listing.
  apply returns_bind. intros files.
  destruct (negb (truthy files)); [by apply returns_ret|].
  apply returns_bind. intros items. apply returns_bind. intros file_ids'.
  apply returns_bind. intros n.
  destruct (n <? limit)%nat; [by apply returns_ret|].
  apply returns_bind. intros _. by apply returns_ret.
Qed.

Lemma fetch_page_cases (file_ids : list json) (offset : nat) (st : state W) :
  fetch_page S file_ids offset st
  = match files_endpoint S (zoho_headers_Authorization st) limit offset (world st) with
    | (HttpFail, w') =>
        (Return (false, file_ids, offset),
         State w' (zoho_auth_token st) (zoho_headers_Authorization st)
               (trace st ++ [GetFiles (zoho_headers_Authorization st) limit offset;
                             Print MsgFetchError]))
    | (HttpOk data, w') =>
        try_except (after_listing file_ids offset data)
          (except_RequestException
             (print MsgFetchError;; mret (false, file_ids, offset)))
          (State w' (zoho_auth_token st) (zoho_headers_Authorization st)
                 (trace st ++ [GetFiles (zoho_headers_Authorization st) limit offset]))
    end.
Proof.
  rewrite fetch_page_unfold.
  unfold try_except, mbind, M_bind, get_Authorization, request.
  destruct (files_endpoint S _ limit offset (world st)) as [[|data] w'];
    [|reflexivity].
  cbn -[limit]. by rewrite <- app_assoc.
Qed.

(** An iteration of the lister, whatever the service answers: one request
    for the window at [offset], and a next offset one window further. *)
Lemma fetch_page_step (file_ids : list json) (offset : nat) (st : state W) :
  exists tail,
    trace (snd (fetch_page S file_ids offset st))
    = (trace st ++ GetFiles (zoho_headers_Authorization st) limit offset :: tail)%list
    /\ list_requests tail = []
    /\ zoho_headers_Authorization (snd (fetch_page S file_ids offset st))
       = zoho_headers_Authorization st
    /\ forall file_ids' offset',
         fst (fetch_page S file_ids offset st) = Return (true, file_ids', offset') ->
         offset' = (offset + limit)%nat.
Proof.
  rewrite fetch_page_cases.
  destruct (files_endpoint S _ limit offset (world st)) as [[|data] w'].
  - cbn -[limit]. exists [Print MsgFetchError].
    split; [done|]. split; [done|]. split; [done|].
    by intros ? ? [=].
  - set (st1 := State w' (zoho_auth_token st) (zoho_headers_Authorization st)
                      (trace st ++ [GetFiles (zoho_headers_Authorization st)
                                             limit offset])).
    destruct (emits_after_listing_sleep (zoho_headers_Authorization st)
                file_ids offset data st1 eq_refl)
      as (_ & Hhdr & evs & Htrace & Hevs).
    pose proof (returns_after_listing file_ids offset data st1) as Hnext.
    assert (list_requests evs = []) as Hnone.
    { eapply list_requests_none; [|exact Hevs]. by intros ev ->. }
    unfold try_except.
    destruct (after_listing file_ids offset data st1) as [[r|e|] st2] eqn:Hrun;
      cbn -[limit] in *.
    + exists evs. split; [by rewrite Htrace, <- app_assoc|]. split; [done|].
      split; [done|]. intros file_ids' offset' [= ->]. by apply (Hnext _ eq_refl).
    + destruct e; cbn -[limit];
        try (exists evs; split; [by rewrite Htrace, <- app_assoc|];
             split; [done|]; split; [done|]; by intros ? ? [=]).
      unfold_M. cbn -[limit]. exists (evs ++ [Print MsgFetchError])%list.
      split; [by rewrite Htrace, <- !app_assoc|].
      split; [by rewrite list_requests_app, Hnone|]. split; [done|].
      by intros ? ? [=].
    + exists evs. split; [by rewrite Htrace, <- app_assoc|]. split; [done|].
      split; [done|]. by intros ? ? [=].
Qed.

Lemma fetch_loop_windows (fuel : nat) (file_ids : list json) (offset : nat)
    (st : state W) :
  exists k evs,
    trace (snd (fetch_loop S fuel file_ids offset st)) = (trace st ++ evs)%list
    /\ (k <= fuel)%nat
    /\ (fuel <> 0%nat -> k <> 0%nat)
    /\ list_requests evs
       = map (fun i => (limit, offset + limit * i)%nat) (seq 0 k).
Proof.
  revert file_ids offset st.
  induction fuel as [|fuel IH]; intros file_ids offset st.
  - exists 0%nat, []. simpl. rewrite app_nil_r. by repeat split.
  - change (fetch_loop S (Datatypes.S fuel) file_ids offset st)
      with ((fetch_page S file_ids offset
               ≫= (fun '(continue, file_ids', offset') =>
                     if continue : bool
                     then fetch_loop S fuel file_ids' offset'
                     else mret file_ids')) st).
    unfold mbind, M_bind.
    destruct (fetch_page_step file_ids offset st)
      as (tail & Htrace & Hnone & _ & Hnext).
    assert (list_requests (GetFiles (zoho_headers_Authorization st) limit offset
                             :: tail) = [(limit, offset)]) as Hone.
    { change (list_requests (GetFiles (zoho_headers_Authorization st) limit offset
                               :: tail))
        with ((limit, offset) :: list_requests tail).
      by rewrite Hnone. }
    assert (map (fun i => (limit, offset + limit * i)%nat) (seq 0 1)
            = [(limit, offset)]) as Hfirst.
    { cbn -[limit]. by rewrite Nat.mul_0_r, Nat.add_0_r. }
    destruct (fetch_page S file_ids offset st)
      as [[[[[] file_ids'] offset']|e|] st1] eqn:Hpage;
      cbn -[limit Nat.mul seq list_requests] in *.
    + rewrite (Hnext file_ids' offset' eq_refl).
      destruct (IH file_ids' (offset + limit)%nat st1)
        as (k & evs & Htrace' & Hk & _ & Hrequests).
      exists (Datatypes.S k), (GetFiles (zoho_headers_Authorization st) limit offset
                               :: tail ++ evs)%list.
      split; [by rewrite Htrace', Htrace, <- app_assoc|].
      split; [lia|]. split; [done|].
      change (list_requests (GetFiles (zoho_headers_Authorization st) limit offset
                               :: tail ++ evs))
        with ((limit, offset) :: list_requests (tail ++ evs)).
      rewrite list_requests_app, Hnone, Hrequests, app_nil_l.
      change (seq 0 (Datatypes.S k)) with (0%nat :: seq 1 k).
      rewrite map_cons, Nat.mul_0_r, Nat.add_0_r. f_equal.
      rewrite <- seq_shift, map_map. apply map_ext. intros i. f_equal. lia.
    + exists 1%nat, (GetFiles (zoho_headers_Authorization st) limit offset :: tail).
      split; [done|]. split; [lia|]. split; [done|]. by rewrite Hone, Hfirst.
    + exists 1%nat, (GetFiles (zoho_headers_Authorization st) limit offset :: tail).
      split; [done|]. split; [lia|]. split; [done|]. by rewrite Hone, Hfirst.
    + exists 1%nat, (GetFiles (zoho_headers_Authorization st) limit offset :: tail).
      split; [done|]. split; [lia|]. split; [done|]. by rewrite Hone, Hfirst.
Qed.

End Steps.

(** X11: whatever the service answers, the lister asks for the windows of
    50 files at the offsets 0, 50, 100, ... in this order, each once and
    with no gap: a run allowed [fuel] iterations makes [k] requests with
    [1 <= k <= fuel]. *)
Theorem fetch_requests_contiguous {W} (S : Services W) (fuel : nat) (st : state W) :
  exists k evs,
    adds (fetch_file_ids S fuel) st evs
    /\ (k <= fuel)%nat
    /\ (fuel <> 0%nat -> k <> 0%nat)
    /\ list_requests evs = map (fun i => (50, 50 * i)%nat) (seq 0 k).
Proof.
  destruct (fetch_loop_windows S fuel [] 0 st) as (k & evs & Htrace & Hk & Hpos & Hreq).
  exists k, evs. unfold adds, fetch_file_ids. by repeat split.
Qed.

Section FileSteps.
Context {W : Type} (S : Services W).

Lemma emits_after_permissions_quiet (a : option auth) (fid response_data : json) :
  emits a (after_permissions S fid response_data) gemini_or_print.
Proof.
  assert (emits a (extract_permalink_with_gemini S response_data) gemini_or_print)
    as Hextract.
  { unfold extract_permalink_with_gemini. apply emits_try_except.
    - repeat emits_step.
    - intros e h. destruct e; simpl; try discriminate. intros [= <-].
      repeat emits_step. }
  unfold after_permissions.
  repeat first [exact Hextract | emits_step].
Qed.

Lemma set_permissions_cases (fid : json) (st : state W) :
  set_permissions_and_get_permalink S fid st
  = match permissions_endpoint S (zoho_headers_Authorization st) fid (world st) with
    | (HttpFail, w') =>
        (Return {| file_id := fid; permalink := JNull; success := false |},
         State w' (zoho_auth_token st) (zoho_headers_Authorization st)
               (trace st ++ [PostPermissions (zoho_headers_Authorization st) fid;
                             Print (MsgProcessError fid)]))
    | (HttpOk response_data, w') =>
        try_except (after_permissions S fid response_data)
          (except_RequestException
             (print (MsgProcessError fid);;
              mret {| file_id := fid; permalink := JNull; success := false |}))
          (State w' (zoho_auth_token st) (zoho_headers_Authorization st)
                 (trace st ++ [PostPermissions (zoho_headers_Authorization st) fid]))
    end.
Proof.
  rewrite set_permissions_unfold.
  unfold try_except, mbind, M_bind, get_Authorization, request.
  destruct (permissions_endpoint S _ fid (world st)) as [[|response_data] w'];
    [|reflexivity].
  cbn. by rewrite <- app_assoc.
Qed.

(** The permission setter, whatever the services answer: one permission
    request, for the file it was given, and no sleep. *)
Lemma set_permissions_step (fid : json) (st : state W) :
  exists tail,
    trace (snd (set_permissions_and_get_permalink S fid st))
    = (trace st ++ PostPermissions (zoho_headers_Authorization st) fid :: tail)%list
    /\ permission_requests tail = []
    /\ sleep_events tail = [].
Proof.
  rewrite set_permissions_cases.
  destruct (permissions_endpoint S _ fid (world st)) as [[|response_data] w'].
  - cbn. by exists [Print (MsgProcessError fid)].
  - set (st1 := State w' (zoho_auth_token st) (zoho_headers_Authorization st)
                      (trace st ++ [PostPermissions (zoho_headers_Authorization st)
                                                    fid])).
    destruct (emits_after_permissions_quiet (zoho_headers_Authorization st)
                fid response_data st1 eq_refl)
      as (_ & _ & evs & Htrace & Hevs).
    destruct (gemini_or_print_quiet evs Hevs) as [Hperm Hsleep].
    unfold try_except.
    destruct (after_permissions S fid response_data st1) as [[r|e|] st2] eqn:Hrun;
      cbn in *.
    + exists evs. by rewrite Htrace, <- app_assoc.
    + destruct e; cbn; try (exists evs; by rewrite Htrace, <- app_assoc).
      unfold_M. cbn. exists (evs ++ [Print (MsgProcessError fid)])%list.
      rewrite Htrace, <- !app_assoc, permission_requests_app, sleep_events_app.
      by rewrite Hperm, Hsleep.
    + exists evs. by rewrite Htrace, <- app_assoc.
Qed.

Lemma process_files_cons (fid : json) (rest : list json)
    (results : list (json * json)) (st : state W) :
  process_files S (fid :: rest) results st
  = match set_permissions_and_get_permalink S fid
            (State (world st) (zoho_auth_token st) (zoho_headers_Authorization st)
                   (trace st ++ [Print (MsgProcessing fid)])) with
    | (Return r, st1) =>
        process_files S rest
          (if success r && truthy (permalink r)
           then (results ++ [(file_id r, permalink r)])%list
           else results)
          (State (world st1) (zoho_auth_token st1) (zoho_headers_Authorization st1)
                 (trace st1 ++ [Sleep 1]))
    | (Raise e, st1) => (Raise e, st1)
    | (OutOfFuel, st1) => (OutOfFuel, st1)
    end.
Proof.
  simpl. unfold mbind, M_bind, print, sleep, emit. simpl.
  by destruct (set_permissions_and_get_permalink S fid _) as [[r|e|] st1].
Qed.

(** X12: the loop of [main] makes its permission requests for the listed
    file ids in their order, one each: whatever the services answer, the
    requests made are a prefix of the list, and when the loop completes
    they are the whole list, with exactly one sleep of one second per
    file. *)
Theorem process_files_one_request_per_file (file_ids : list json)
    (results : list (json * json)) (st : state W) :
  exists evs,
    adds (process_files S file_ids results) st evs
    /\ permission_requests evs `prefix_of` file_ids
    /\ forall results',
         fst (process_files S file_ids results st) = Return results' ->
         permission_requests evs = file_ids
         /\ sleep_events evs = repeat 1%nat (length file_ids).
Proof.
  unfold adds. revert results st.
  induction file_ids as [|fid rest IH]; intros results st.
  - exists []. simpl. rewrite app_nil_r. by repeat split.
  - rewrite process_files_cons.
    set (st0 := State (world st) (zoho_auth_token st) (zoho_headers_Authorization st)
                      (trace st ++ [Print (MsgProcessing fid)])).
    destruct (set_permissions_step fid st0) as (tail & Htrace & Hperm & Hsleep).
    destruct (set_permissions_and_get_permalink S fid st0) as [[r|e|] st1] eqn:Hset;
      cbn [fst snd] in *;
      unfold st0 in Htrace; cbn [trace zoho_headers_Authorization] in Htrace.
    + match goal with
      | |- context [process_files S rest ?res ?st2] =>
          destruct (IH res st2) as (evs & Hevs & Hprefix & Hdone)
      end.
      exists (Print (MsgProcessing fid)
              :: PostPermissions (zoho_headers_Authorization st) fid
              :: tail ++ Sleep 1 :: evs)%list.
      split.
      { rewrite Hevs. cbn [trace]. rewrite Htrace.
        rewrite <- !app_assoc. reflexivity. }
      change (permission_requests
                (Print (MsgProcessing fid)
                 :: PostPermissions (zoho_headers_Authorization st) fid
                 :: tail ++ Sleep 1 :: evs))
        with (fid :: permission_requests (tail ++ Sleep 1 :: evs)).
      change (sleep_events
                (Print (MsgProcessing fid)
                 :: PostPermissions (zoho_headers_Authorization st) fid
                 :: tail ++ Sleep 1 :: evs))
        with (sleep_events (tail ++ Sleep 1 :: evs)).
      rewrite permission_requests_app, sleep_events_app, Hperm, Hsleep.
      change (permission_requests (Sleep 1 :: evs)) with (permission_requests evs).
      change (sleep_events (Sleep 1 :: evs)) with (1%nat :: sleep_events evs).
      split; [by apply prefix_cons|].
      intros results' Hreturn. destruct (Hdone results' Hreturn) as [-> ->]. done.
    + exists (Print (MsgProcessing fid)
              :: PostPermissions (zoho_headers_Authorization st) fid :: tail).
      split; [rewrite Htrace; by rewrite <- !app_assoc|].
      change (permission_requests
                (Print (MsgProcessing fid)
                 :: PostPermissions (zoho_headers_Authorization st) fid :: tail))
        with (fid :: permission_requests tail).
      rewrite Hperm. split; [|done]. apply prefix_cons, prefix_nil.
    + exists (Print (MsgProcessing fid)
              :: PostPermissions (zoho_headers_Authorization st) fid :: tail).
      split; [rewrite Htrace; by rewrite <- !app_assoc|].
      change (permission_requests
                (Print (MsgProcessing fid)
                 :: PostPermissions (zoho_headers_Authorization st) fid :: tail))
        with (fid :: permission_requests tail).
      rewrite Hperm. split; [|done]. apply prefix_cons, prefix_nil.
Qed.

End FileSteps.

(** ** More on [strip] *)

Lemma lstrip_fixed (s : string) : not_space (first_char s) -> lstrip s = s.
Proof. destruct s as [|c s]; simpl; [done|]. by intros ->. Qed.

Lemma rstrip_fixed (s : string) : not_space (last_char s) -> rstrip s = s.
Proof.
  induction s as [|c s IH]; [done|]. simpl.
  destruct s as [|d s]; [by intros ->|].
  intros Hlast. by rewrite (IH Hlast).
Qed.

Lemma strip_idempotent (s : string) : strip (strip s) = strip s.
Proof.
  destruct (lstrip_spec s) as (l & _ & _ & Hfirst).
  destruct (rstrip_spec (lstrip s)) as (r & _ & _ & Hlast).
  unfold strip at 1. rewrite lstrip_fixed.
  - by apply rstrip_fixed.
  - unfold strip. by rewrite rstrip_first.
Qed.

Lemma lstrip_space_l (l s : string) : all_space l = true -> lstrip (l +:+ s) = lstrip s.
Proof.
  induction l as [|c l IH]; [done|]. simpl.
  intros [Hc Hl]%andb_prop. rewrite Hc. by apply IH.
Qed.

Lemma lstrip_all_space (s : string) : all_space s = true -> lstrip s = "".
Proof.
  induction s as [|c s IH]; [done|]. simpl.
  intros [Hc Hs]%andb_prop. rewrite Hc. by apply IH.
Qed.

Lemma rstrip_all_space (s : string) : all_space s = true -> rstrip s = "".
Proof.
  induction s as [|c s IH]; [done|]. simpl.
  intros [Hc Hs]%andb_prop. by rewrite (IH Hs), Hc.
Qed.

Lemma rstrip_space_r (s r : string) : all_space r = true -> rstrip (s +:+ r) = rstrip s.
Proof.
  intros Hr. induction s as [|c s IH].
  - simpl. by apply rstrip_all_space.
  - change (rstrip (String c (s +:+ r)) = rstrip (String c s)).
    simpl. by rewrite IH.
Qed.

Lemma lstrip_app (s r : string) :
  lstrip (s +:+ r) = if all_space s then lstrip r else lstrip s +:+ r.
Proof.
  induction s as [|c s IH]; [done|].
  change (lstrip (String c (s +:+ r))
          = if all_space (String c s) then lstrip r else lstrip (String c s) +:+ r).
  simpl. destruct (is_space c); [exact IH|done].
Qed.

(** X13: white space around a text does not change what [strip] makes of
    it, and [strip] applied twice is [strip] applied once. *)
Theorem strip_surrounded (l s r : string) :
  all_space l = true -> all_space r = true ->
  strip (l +:+ s +:+ r) = strip s
  /\ strip (strip (l +:+ s +:+ r)) = strip s.
Proof.
  intros Hl Hr.
  assert (strip (l +:+ s +:+ r) = strip s) as Hstrip.
  { unfold strip. rewrite (lstrip_space_l l _ Hl), lstrip_app.
    destruct (all_space s) eqn:Hs.
    - by rewrite (lstrip_all_space r Hr), (lstrip_all_space s Hs).
    - by apply rstrip_space_r. }
  split; [done|]. by rewrite strip_idempotent, Hstrip.
Qed.

Lemma strip_surrounded_witness :
  all_space "  " = true
  /\ all_space "
" = true
  /\ strip ("  " +:+ "https://a b" +:+ "
") = strip "https://a b"
  /\ strip (strip ("  " +:+ "https://a b" +:+ "
")) = strip "https://a b".
Proof.
  split; [reflexivity|]. split; [reflexivity|].
  by apply (strip_surrounded "  " "https://a b").
Defined.

(** ** The link extractor on the trimmed answer *)

(** A text that neither starts nor ends with white space is what [strip]
    makes of it between any two runs of white space. *)
Lemma strip_core (l core r : string) :
  all_space l = true -> all_space r = true ->
  not_space (first_char core) -> not_space (last_char core) ->
  strip (l +:+ core +:+ r) = core.
Proof.
  intros Hl Hr Hfirst Hlast. unfold strip.
  rewrite (lstrip_space_l l _ Hl), lstrip_app.
  destruct (all_space core) eqn:Hcore.
  - destruct core as [|c core]; [by rewrite (lstrip_all_space r Hr)|].
    simpl in Hfirst, Hcore. by rewrite Hfirst in Hcore.
  - rewrite (lstrip_fixed core Hfirst), (rstrip_space_r core r Hr).
    by apply rstrip_fixed.
Qed.

Lemma strip_trims_to (t core : string) : trims_to t core -> strip t = core.
Proof. intros (l & r & -> & Hl & Hr & Hfirst & Hlast). by apply strip_core. Qed.

(** C4: every text [t] that the Gemini answer carries has a trimmed form,
    [t] without the white space at its two ends, and the extractor decides
    on it: it returns no link when the trimmed text is ["None"] or empty, no
    link when it starts with neither [http://] nor [https://], and otherwise
    the trimmed text itself. *)
Theorem extract_parses_text {W} (S : Services W) (response_data gemini_response : json)
    (t : string) (st : state W) (w' : W) :
  gemini_endpoint S response_data (world st) = (HttpOk gemini_response, w') ->
  gemini_text gemini_response = Some (JStr t) ->
  let link := fst (extract_permalink_with_gemini S response_data st) in
  (exists core, trims_to t core)
  /\ forall core, trims_to t core ->
       (core = "None" \/ core = "" -> link = Return JNull)
       /\ ((forall rest, core <> "http://" +:+ rest /\ core <> "https://" +:+ rest) ->
           link = Return JNull)
       /\ ((exists rest, core = "http://" +:+ rest \/ core = "https://" +:+ rest) ->
           link = Return (JStr core)).
Proof.
  intros Hcall Htext link. split.
  - destruct (lstrip_spec t) as (l & Ht & Hl & Hfirst).
    destruct (rstrip_spec (lstrip t)) as (r & Hlt & Hr & Hlast).
    exists (strip t), l, r. unfold strip. rewrite <- Hlt, <- Ht.
    split; [done|]. split; [done|]. split; [done|]. split; [|done].
    by rewrite rstrip_first.
  - intros core Hcore. unfold link.
    rewrite (extract_text S response_data gemini_response t st w' Hcall Htext).
    rewrite (strip_trims_to t core Hcore). split; [|split].
    + intros [-> | ->]; reflexivity.
    + intros Hnone.
      destruct (matches_url_scheme core) eqn:Hscheme.
      * apply matches_url_scheme_spec in Hscheme as [rest Hrest].
        destruct (Hnone rest) as [H1 H2]. by destruct Hrest.
      * by destruct (_ || _).
    + intros Hurl. pose proof Hurl as [rest Hrest].
      apply matches_url_scheme_spec in Hurl. rewrite Hurl.
      by destruct Hrest as [-> | ->].
Qed.

Lemma extract_parses_text_witness :
  let S := gemini_says "  https://example.com/f
" in
  gemini_endpoint S JNull (world (initial [])) = (HttpOk (gemini_body "  https://example.com/f
"), [])
  /\ gemini_text (gemini_body "  https://example.com/f
") = Some (JStr "  https://example.com/f
")
  /\ trims_to "  https://example.com/f
" "https://example.com/f"
  /\ fst (extract_permalink_with_gemini S JNull (initial []))
     = Return (JStr "https://example.com/f").
Proof.
  intros S. split; [reflexivity|]. split; [reflexivity|].
  assert (trims_to "  https://example.com/f
" "https://example.com/f") as Hcore.
  { exists "  ", "
". repeat split; reflexivity. }
  split; [exact Hcore|].
  pose proof (extract_parses_text S JNull _ _ (initial []) [] eq_refl eq_refl)
    as Hparsed.
  cbv zeta in Hparsed. destruct Hparsed as [_ Hcases].
  apply (Hcases _ Hcore). exists "example.com/f". by right.
Defined.

(** ** What the extractor and the setter can return *)

Section Results.
Context {W : Type} (S : Services W).

Lemma returns_extract (response_data : json) :
  returns (extract_permalink_with_gemini S response_data) url_or_none.
Proof.
  unfold extract_permalink_with_gemini. apply returns_try_except.
  - do 6 (apply returns_bind; intros ?). apply returns_bind. intros text.
    eapply returns_post.
    + apply (returns_lift _ (fun t => strip t = t)).
      intros t. destruct text; try discriminate. intros [= <-].
      apply strip_idempotent.
    + intros t Ht.
      destruct (String.eqb t "None" || String.eqb t "");
        [apply returns_bind; intros _; apply returns_ret; by left|].
      destruct (matches_url_scheme t) eqn:Hscheme; simpl;
        apply returns_bind; intros _; apply returns_ret; [|by left].
      right. by exists t.
  - intros e h. destruct e; simpl; try discriminate. intros [= <-].
    apply returns_bind. intros _. apply returns_ret. by left.
Qed.

(** X14: whatever the Gemini service answers, what the extractor returns
    is [None] or a string that starts with [http://] or [https://] and has
    no white space at either end. *)
Theorem extract_returns_url_or_none (response_data : json) (st : state W) (x : json) :
  fst (extract_permalink_with_gemini S response_data st) = Return x ->
  url_or_none x.
Proof. apply returns_extract. Qed.

Lemma url_truthy (x : json) : url_or_none x -> truthy x = true \/ x = JNull.
Proof.
  intros [->|(s & -> & Hscheme & _)]; [by right|]. left.
  by destruct s.
Qed.

(** X15: what the permission setter returns is about the file it was given;
    without success there is no permalink; and the permalink is never a
    falsy value other than [None]: it is the truthy value found in the
    answer, a link validated by the extractor, or [None]. *)
Theorem set_permissions_result (fid : json) (st : state W) (r : permission_result) :
  fst (set_permissions_and_get_permalink S fid st) = Return r ->
  file_id r = fid
  /\ (success r = false -> permalink r = JNull)
  /\ (truthy (permalink r) = true \/ permalink r = JNull).
Proof.
  revert st r.
  change (returns (set_permissions_and_get_permalink S fid)
            (fun r => file_id r = fid
                      /\ (success r = false -> permalink r = JNull)
                      /\ (truthy (permalink r) = true \/ permalink r = JNull))).
  unfold set_permissions_and_get_permalink. apply returns_try_except.
  - do 5 (apply returns_bind; intros ?). apply returns_bind. intros direct.
    eapply (returns_post _ _ (fun link => truthy link = true \/ link = JNull)).
    + destruct (truthy direct) eqn:Hdirect.
      * apply returns_bind. intros _. apply returns_ret. by left.
      * apply returns_bind. intros _.
        eapply returns_post; [apply returns_extract|].
        intros extracted Hurl. apply returns_bind. intros _.
        apply returns_ret. by apply url_truthy.
    + intros link Hlink. apply returns_ret. by repeat split.
  - intros e h. destruct e; simpl; try discriminate. intros [= <-].
    apply returns_bind. intros _. apply returns_ret. by repeat split; [right].
Qed.

End Results.

Lemma extract_returns_url_or_none_witness :
  fst (extract_permalink_with_gemini (gemini_says " https://example.com/f ") JNull
         (initial []))
  = Return (JStr "https://example.com/f")
  /\ url_or_none (JStr "https://example.com/f").
Proof.
  split; [reflexivity|].
  by apply (extract_returns_url_or_none (gemini_says " https://example.com/f ")
              JNull (initial [])).
Defined.

Lemma set_permissions_result_witness :
  let r := {| file_id := JStr "f2"; permalink := JNull; success := false |} in
  fst (set_permissions_and_get_permalink second_fails (JStr "f2") (initial []))
  = Return r
  /\ file_id r = JStr "f2"
  /\ (success r = false -> permalink r = JNull)
  /\ (truthy (permalink r) = true \/ permalink r = JNull).
Proof.
  intros r. split; [reflexivity|].
  by apply (set_permissions_result second_fails (JStr "f2") (initial [])).
Defined.

(** ** Exceptions that no [except] clause catches *)

Lemma collect_ids_non_object (items : list json) (acc : list json) :
  existsb (fun item => negb (is_object item)) items = true ->
  collect_ids items acc = Raise AttributeError.
Proof.
  revert acc. induction items as [|item items IH]; intros acc; [done|].
  simpl. destruct item as [| | | | |fields]; simpl; try done.
  intros Hrest. by apply IH.
Qed.

Section Uncaught.
Context {W : Type} (S : Services W).

(** X16: a listing answer that is not an object, or whose [data] list holds
    an entry that is not an object, makes the lister raise an
    [AttributeError]: its [except] clause, which catches request errors
    only, lets it through, and the identifiers collected so far are not
    returned. *)
Theorem fetch_malformed_body_raises (fuel : nat) (file_ids : list json)
    (offset : nat) (st : state W) (body : json) (w' : W) :
  files_endpoint S (zoho_headers_Authorization st) limit offset (world st)
  = (HttpOk body, w') ->
  listing_malformed body = true ->
  fetch_loop S (Datatypes.S fuel) file_ids offset st
  = (Raise AttributeError,
     State w' (zoho_auth_token st) (zoho_headers_Authorization st)
           (trace st ++ [GetFiles (zoho_headers_Authorization st) limit offset])).
Proof.
  intros Hcall Hbad. cbn -[limit]. unfold fetch_page. unfold_M. cbn -[limit].
  rewrite Hcall. cbn -[limit].
  destruct body as [| | | | |fields]; try done. cbn -[limit] in *.
  destruct (dict_lookup "data" fields) as [[| | | |items|]|]; try done.
  cbn -[limit collect_ids].
  destruct items as [|item items]; [done|].
  cbn -[limit collect_ids]. by rewrite (collect_ids_non_object _ _ Hbad).
Qed.

(** X17: a Gemini answer whose [candidates] list is empty makes the
    extractor raise an [IndexError] that neither it, nor the permission
    setter, nor the loop of [main] catches: the loop stops at this file,
    without its sleep, and the remaining files are not processed. *)
Theorem gemini_empty_candidates_aborts (fid : json) (rest : list json)
    (results : list (json * json)) (st : state W) (response_data link : json)
    (body : list (string * json)) (w1 w2 : W) :
  permissions_endpoint S (zoho_headers_Authorization st) fid (world st)
  = (HttpOk response_data, w1) ->
  direct_permalink response_data = Return link ->
  truthy link = false ->
  gemini_endpoint S response_data w1 = (HttpOk (JObj body), w2) ->
  dict_lookup "candidates" body = Some (JArr []) ->
  process_files S (fid :: rest) results st
  = (Raise IndexError,
     State w2 (zoho_auth_token st) (zoho_headers_Authorization st)
           (trace st ++ [Print (MsgProcessing fid);
                         PostPermissions (zoho_headers_Authorization st) fid;
                         Print (MsgPermissionsSet fid response_data);
                         Print (MsgUsingGemini fid);
                         PostGemini response_data])).
Proof.
  intros Hcall Hdirect Hfalsy Hgemini Hempty.
  simpl. unfold set_permissions_and_get_permalink, extract_permalink_with_gemini,
    direct_permalink in *. unfold_M.
  simpl. rewrite Hcall. simpl.
  destruct (py_get response_data "data" (JObj [])) as [data|e|];
    try discriminate. simpl.
  destruct (py_get data "attributes" (JObj [])) as [attributes|e|];
    try discriminate. simpl.
  rewrite Hdirect. simpl. rewrite Hfalsy. simpl. rewrite Hgemini. simpl.
  rewrite Hempty. simpl. by rewrite <- !app_assoc.
Qed.

End Uncaught.

Lemma fetch_malformed_body_raises_witness :
  let S := demo HttpFail [JNum 7] (fun _ => HttpFail) HttpFail TokenFileMissing in
  files_endpoint S None limit 0 [] = (HttpOk (JObj [("data", JArr [JNum 7])]), [])
  /\ listing_malformed (JObj [("data", JArr [JNum 7])]) = true
  /\ fetch_loop S 1 [] 0 (initial [])
     = (Raise AttributeError, State [] None None [GetFiles None limit 0]).
Proof.
  intros S. split; [reflexivity|]. split; [reflexivity|].
  by apply (fetch_malformed_body_raises S 0 [] 0 (initial [])
              (JObj [("data", JArr [JNum 7])]) []).
Defined.

Lemma gemini_empty_candidates_aborts_witness :
  let rd := JObj [("data", JObj [])] in
  let S := demo HttpFail [] (fun _ => HttpOk rd)
                (HttpOk (JObj [("candidates", JArr [])])) TokenFileMissing in
  let st := initial [] in
  permissions_endpoint S (zoho_headers_Authorization st) (JStr "f1") (world st)
  = (HttpOk rd, [])
  /\ direct_permalink rd = Return JNull
  /\ truthy JNull = false
  /\ gemini_endpoint S rd [] = (HttpOk (JObj [("candidates", JArr [])]), [])
  /\ dict_lookup "candidates" [("candidates", JArr [])] = Some (JArr [])
  /\ process_files S [JStr "f1"; JStr "f2"] [] st
     = (Raise IndexError,
        State [] None None
              [Print (MsgProcessing (JStr "f1")); PostPermissions None (JStr "f1");
               Print (MsgPermissionsSet (JStr "f1") rd);
               Print (MsgUsingGemini (JStr "f1")); PostGemini rd]).
Proof.
  intros rd S st. do 5 (split; [reflexivity|]).
  by apply (gemini_empty_candidates_aborts S (JStr "f1") [JStr "f2"] [] st rd JNull
              [("candidates", JArr [])] [] []).
Defined.

(** X18: [refresh_access_token] returns [True] exactly when the three
    configuration tests pass and the token answer is an object with an
    [access_token] field. *)
Theorem refresh_true_iff {W} (S : Services W) (cfg : Config) (st : state W) :
  fst (refresh_access_token S cfg st) = Return true
  <-> config_rejected cfg = false
      /\ token_granted (fst (token_endpoint S (world st))) = true.
Proof.
  unfold config_rejected, refresh_access_token.
  destruct (existsb is_None (refresh_params cfg)); [by split; [|intros []]|].
  destruct (negb (env_truthy (gemini_api_key cfg))); [by split; [|intros []]|].
  destruct (negb (env_truthy (SPREADSHEET_ID cfg))); [by split; [|intros []]|].
  unfold_M.
  destruct (token_endpoint S (world st)) as [[|body] w']; simpl;
    [by split; [|intros []]|].
  destruct body as [| | |s|items|fields]; simpl; try (by split; [|intros []]).
  - destruct (is_substring "access_token" s); simpl; by split; [|intros []].
  - destruct (existsb (is_str "access_token") items); simpl; by split; [|intros []].
  - destruct (dict_lookup "access_token" fields); simpl; by split; [|intros []].
Qed.

(** ** Identifiers that a set cannot hold *)

Lemma appended_rows_reading (evs : list event) :
  Forall reading_event evs -> appended_rows evs = [].
Proof.
  induction 1 as [|ev evs Hev _ IH]; [done|].
  unfold appended_rows in *. simpl. rewrite IH. by destruct ev.
Qed.

Section Unhashable.
Context {W : Type} (S : Services W).

Lemma emits_service_reading (a : option auth) :
  emits a (get_google_sheets_service S) reading_event.
Proof.
  unfold get_google_sheets_service. apply emits_try_except.
  - apply emits_bind.
    + intros st Ha. destruct (token_file S (world st)); simpl;
        (split; [done|]; split; [done|]; exists []; by rewrite app_nil_r).
    + intros [[]|]; repeat emits_step.
  - intros e h [= <-]. repeat emits_step.
Qed.

Lemma emits_filter_new_reading (a : option auth) (results : list (json * json))
    (E : gset string) (acc : list (json * json)) :
  emits a (filter_new (W:=W) results E acc) reading_event.
Proof.
  revert acc. induction results as [|[fid link] rest IH]; intros acc; simpl.
  - apply emits_ret.
  - apply emits_bind; [apply emits_lift|]. intros [].
    + apply emits_bind; [by apply emits_print|]. intros _. apply IH.
    + apply emits_bind; [by apply emits_print|]. intros _. apply IH.
Qed.

(** The membership test of the filter raises on the first list or object:
    the filter then returns nothing. *)
Lemma filter_new_unhashable (results : list (json * json)) (E : gset string)
    (acc : list (json * json)) :
  existsb (fun row => unhashable (fst row)) results = true ->
  returns (filter_new (W:=W) results E acc) (fun _ => False).
Proof.
  revert acc. induction results as [|[fid link] rest IH]; intros acc; [done|].
  simpl. intros Hbad. apply (returns_post _ _ (fun _ => unhashable fid = false)).
  - apply returns_lift. intros fresh. by destruct fid.
  - intros fresh Hfid. rewrite Hfid in Hbad. simpl in Hbad.
    destruct fresh; apply returns_bind; intros _; by apply IH.
Qed.

(** X19: when one of the pairs handed to [append_to_google_sheet] has a list
    or an object as its identifier, the membership test [file_id not in
    existing_ids] raises a [TypeError] that the last [except] clause
    swallows: the call appends nothing, not even the pairs before it that
    the sheet does not hold. *)
Theorem append_unhashable_id_appends_nothing (results : list (json * json))
    (st : state W) :
  existsb (fun row => unhashable (fst row)) results = true ->
  exists evs,
    adds (append_to_google_sheet S results) st evs
    /\ Forall reading_event evs
    /\ appended_rows evs = [].
Proof.
  intros Hbad.
  assert (emits (zoho_headers_Authorization st)
                (append_to_google_sheet S results) reading_event) as Hrun.
  { unfold append_to_google_sheet. apply emits_try_except.
    - apply emits_bind; [apply emits_service_reading|]. intros _.
      apply emits_bind; [by apply emits_api_call|]. intros result.
      apply emits_bind; [by apply emits_print|]. intros _.
      apply (emits_post _ _ _ (fun _ => False));
        [by apply filter_new_unhashable|apply emits_filter_new_reading|].
      by intros values [].
    - intros e h. destruct e; intros [= <-]; by apply emits_print. }
  destruct (Hrun st eq_refl) as (_ & _ & evs & Htrace & Hevs).
  exists evs. split; [done|]. split; [done|]. by apply appended_rows_reading.
Qed.

End Unhashable.

Lemma append_unhashable_id_appends_nothing_witness :
  let S := demo HttpFail [] (fun _ => HttpFail) HttpFail (TokenFileLoaded true) in
  let results := [(JStr "f1", JStr "https://example.com/1");
                  (JArr [JStr "f2"], JStr "https://example.com/2")] in
  existsb (fun row => unhashable (fst row)) results = true
  /\ exists evs,
       adds (append_to_google_sheet S results) (initial []) evs
       /\ Forall reading_event evs
       /\ appended_rows evs = [].
Proof.
  intros S results. split; [reflexivity|].
  by apply (append_unhashable_id_appends_nothing S results (initial [])).
Defined.

(** ** The four phases of a run *)

Section Phases.
Context {W : Type} (S : Services W) (cfg : Config).

Lemma runs_emits {A} (a : option auth) (m : M W A) (P : event -> Prop) :
  emits a m P -> runs a m (Forall P).
Proof.
  intros Hm st Ha. destruct (Hm st Ha) as (_ & Hhdr & evs & Htrace & Hevs).
  split; [done|]. by exists evs.
Qed.

Lemma runs_then {A B} (a : option auth) (m : M W A) (k : A -> M W B)
    (P : event -> Prop) (T : list event -> Prop) :
  emits a m P -> T [] -> (forall x, runs a (k x) T) ->
  runs a (m ≫= k) (followed_by P T).
Proof.
  intros Hm Hnil Hk st Ha. unfold mbind, M_bind.
  destruct (Hm st Ha) as (_ & Hhdr & evs1 & Htrace & Hevs1).
  destruct (m st) as [[x|e|] st1] eqn:Hrun; simpl in *.
  - destruct (Hk x st1 Hhdr) as (Hhdr2 & evs2 & Htrace2 & Hevs2).
    split; [done|]. exists (evs1 ++ evs2)%list. split.
    + by rewrite Htrace2, Htrace, <- app_assoc.
    + by exists evs1, evs2.
  - split; [done|]. exists evs1. split; [done|].
    exists evs1, []. by rewrite app_nil_r.
  - split; [done|]. exists evs1. split; [done|].
    exists evs1, []. by rewrite app_nil_r.
Qed.

Lemma runs_print_then {A} (a : option auth) (msg : message) (m : M W A)
    (P : event -> Prop) (T : list event -> Prop) :
  P (Print msg) -> runs a m (followed_by P T) ->
  runs a (print msg;; m) (followed_by P T).
Proof.
  intros Hmsg Hm st Ha. unfold_M. cbn [fst snd].
  set (st0 := State (world st) (zoho_auth_token st) (zoho_headers_Authorization st)
                    (trace st ++ [Print msg])).
  destruct (Hm st0 Ha) as (Hhdr & evs & Htrace & evs1 & evs2 & -> & Hevs1 & Hevs2).
  split; [done|]. exists (Print msg :: evs1 ++ evs2)%list. split.
  - rewrite Htrace. unfold st0. cbn [trace]. by rewrite <- app_assoc.
  - exists (Print msg :: evs1), evs2. split; [done|]. split; [|done].
    by constructor.
Qed.

Lemma after_refresh_phases (a : option auth) (fuel : nat) :
  runs a (after_refresh S fuel)
       (followed_by (lister_event a)
          (followed_by (processing_event a) (Forall sheet_event))).
Proof.
  unfold after_refresh, fetch_file_ids.
  apply runs_print_then; [done|]. apply runs_then.
  - apply emits_fetch_loop.
  - by exists [], [].
  - intros file_ids. apply runs_print_then; [done|]. apply runs_then.
    + apply emits_process_files.
    + done.
    + intros [|row rows]; apply runs_emits;
        [by apply emits_print|apply emits_append].
Qed.

(** X20: the events of a run come in four consecutive phases: the token
    refresh, with no file activity; the listing requests; the permission and
    Gemini requests; the calls of the Sheets client.  No listing request
    follows a permission request, and no request to the WorkDrive or Gemini
    API follows a call of the Sheets client.  Every request of the second
    and third phase is sent under the header that the run ends with. *)
Theorem main_phases_in_order (fuel : nat) (st : state W) :
  exists refreshing listing processing sheet,
    adds (main S cfg fuel) st (refreshing ++ listing ++ processing ++ sheet)
    /\ Forall (fun ev => file_activity ev = false) refreshing
    /\ Forall (lister_event (zoho_headers_Authorization (snd (main S cfg fuel st))))
              listing
    /\ Forall (processing_event
                 (zoho_headers_Authorization (snd (main S cfg fuel st))))
              processing
    /\ Forall sheet_event sheet.
Proof.
  unfold adds.
  set (st0 := State (world st) (zoho_auth_token st) (zoho_headers_Authorization st)
                    (trace st ++ [Print MsgRefreshing])).
  destruct (refresh_quiet S cfg st0) as [_ (evs0 & Hadds0 & Hquiet)].
  unfold adds in Hadds0.
  destruct (refresh_access_token S cfg st0) as [[[]|e|] st1] eqn:Hrefresh;
    simpl in *.
  - destruct (after_refresh_phases (zoho_headers_Authorization st1) fuel st1 eq_refl)
      as (Hfinal & evs & Htrace & evs1 & rest & -> & Hevs1
          & evs2 & evs3 & -> & Hevs2 & Hevs3).
    rewrite (main_refresh_true S cfg fuel st st1 Hrefresh), Hfinal.
    exists (Print MsgRefreshing :: evs0), evs1, evs2, evs3.
    split; [|split; [by constructor|done]].
    rewrite Htrace, Hadds0. unfold st0. cbn [trace].
    by rewrite <- !app_assoc.
  - rewrite (main_refresh_false S cfg fuel st st1 Hrefresh). cbn [snd trace].
    exists (Print MsgRefreshing :: evs0 ++ [Print MsgExiting])%list, [], [], [].
    split; [|split; [|done]].
    + rewrite Hadds0. unfold st0. cbn [trace].
      by rewrite !app_nil_r, <- !app_assoc.
    + constructor; [done|]. apply Forall_app. split; [done|]. by constructor.
  - rewrite (main_refresh_raise S cfg fuel st st1 e Hrefresh). cbn [snd].
    exists (Print MsgRefreshing :: evs0), [], [], [].
    split; [|split; [by constructor|done]].
    rewrite Hadds0. unfold st0. cbn [trace]. by rewrite !app_nil_r, <- !app_assoc.
  - exfalso. destruct (refresh_quiet S cfg st0) as [Hfuel _]. by rewrite Hrefresh in Hfuel.
Qed.

End Phases.
